(** * Business-intelligence dashboard: the two serverless handlers

    A shallow embedding of [api/stocks.js] (the price fan-out handler) and
    [api/transcript.js] (the earnings-transcript handler), together with the
    part of the JavaScript runtime the two files rely on: strings
    ([toUpperCase], [trim], [includes], [parseInt], [Number.prototype.toString]),
    parsed JSON values with property access and truthiness, exceptions,
    [fetch] against an upstream service, and [Promise.all].

    Strings are Rocq strings, read as sequences of ASCII characters.  Logging
    through [console.log] and [console.error] has no influence on a response
    and is left out. *)

From Stdlib Require Import ZArith QArith_base String Ascii DecimalString.
From stdpp Require Import base option list gmap strings.

Local Open Scope string_scope.
Local Open Scope Z_scope.

(** ** The JavaScript runtime *)

Module JS.

(** *** Characters and strings *)

Definition code (c : ascii) : nat := nat_of_ascii c.

Definition between (lo hi : nat) (c : ascii) : bool :=
  (lo <=? code c)%nat && (code c <=? hi)%nat.

Definition is_upper : ascii → bool := between 65 90.
Definition is_lower : ascii → bool := between 97 122.
Definition is_digit : ascii → bool := between 48 57.

(** White space and line terminators that [trim] and [parseInt] strip, as
    far as ASCII goes: TAB, LF, VT, FF, CR and SPACE.  JavaScript strips more
    outside ASCII (U+00A0, U+FEFF, U+2028, U+2029, the space separators);
    such text is outside this model. *)
Definition is_space (c : ascii) : bool :=
  between 9 13 c || (code c =? 32)%nat.

Definition upper_char (c : ascii) : ascii :=
  if is_lower c then ascii_of_nat (code c - 32) else c.

(** [s.toUpperCase()] on ASCII text: the letters a-z are mapped, everything
    else is kept.  JavaScript also maps letters outside ASCII (U+00DF becomes
    "SS"); such text is outside this model. *)
Fixpoint toUpperCase (s : string) : string :=
  match s with
  | EmptyString => EmptyString
  | String c s' => String (upper_char c) (toUpperCase s')
  end.

Fixpoint trimStart (s : string) : string :=
  match s with
  | EmptyString => EmptyString
  | String c s' => if is_space c then trimStart s' else s
  end.

Fixpoint trimEnd (s : string) : string :=
  match s with
  | EmptyString => EmptyString
  | String c s' =>
      match trimEnd s' with
      | EmptyString => if is_space c then EmptyString else String c EmptyString
      | r => String c r
      end
  end.

Definition trim (s : string) : string := trimEnd (trimStart s).

Fixpoint startsWith (p s : string) : bool :=
  match p, s with
  | EmptyString, _ => true
  | String a p', String b s' => Ascii.eqb a b && startsWith p' s'
  | String _ _, EmptyString => false
  end.

(** [s.includes(sub)]: [sub] occurs at some position of [s]. *)
Fixpoint includes (sub s : string) : bool :=
  startsWith sub s ||
  match s with
  | EmptyString => false
  | String _ s' => includes sub s'
  end.

Fixpoint all_chars (p : ascii → bool) (s : string) : bool :=
  match s with
  | EmptyString => true
  | String c s' => p c && all_chars p s'
  end.

(** [Array.prototype.join]. *)
Fixpoint join (sep : string) (l : list string) : string :=
  match l with
  | [] => EmptyString
  | [s] => s
  | s :: l' => s +:+ sep +:+ join sep l'
  end.

(** *** parseInt with no radix argument

    Leading white space is skipped, one sign is read, a [0x]/[0X] prefix
    selects radix 16, and then the longest run of digits of the radix is
    read; the rest of the string is ignored.  [None] stands for [NaN].  The
    value is kept exact: the handlers only compare it with small integer
    bounds, on which the exact value and its nearest double agree. *)

Definition digit_value (radix : Z) (c : ascii) : option Z :=
  let n := Z.of_nat (code c) in
  let v := if is_digit c then Some (n - 48)
           else if is_lower c then Some (n - 97 + 10)
           else if is_upper c then Some (n - 65 + 10)
           else None in
  match v with
  | Some d => if d <? radix then Some d else None
  | None => None
  end.

(** Reads digits while there are any; [acc] is [None] until the first one. *)
Fixpoint read_digits (radix : Z) (acc : option Z) (s : string) : option Z :=
  match s with
  | EmptyString => acc
  | String c s' =>
      match digit_value radix c with
      | Some d => read_digits radix (Some (radix * default 0 acc + d)) s'
      | None => acc
      end
  end.

Definition read_sign (s : string) : Z * string :=
  match s with
  | String "-" s' => (-1, s')
  | String "+" s' => (1, s')
  | _ => (1, s)
  end.

Definition read_radix (s : string) : Z * string :=
  match s with
  | String "0" (String "x" s') => (16, s')
  | String "0" (String "X" s') => (16, s')
  | _ => (10, s)
  end.

Definition parseInt (input : string) : option Z :=
  let '(sign, s1) := read_sign (trimStart input) in
  let '(radix, s2) := read_radix s1 in
  match read_digits radix None s2 with
  | Some n => Some (sign * n)
  | None => None
  end.

(** The number a string of decimal digits denotes, and the test that a
    string does not go on with a digit: [ds +:+ rest] with
    [no_leading_digit rest] has [ds] as its leading run of digits. *)
Fixpoint numeral (acc : Z) (ds : string) : Z :=
  match ds with
  | EmptyString => acc
  | String c ds' => numeral (10 * acc + (Z.of_nat (code c) - 48)) ds'
  end.

Definition numeral_value (ds : string) : Z := numeral 0 ds.

Definition no_leading_digit (s : string) : bool :=
  match s with
  | EmptyString => true
  | String c _ => negb (is_digit c)
  end.

(** The same for what follows a [0x] prefix: the number a string of
    hexadecimal digits denotes. *)
Definition is_hex_digit (c : ascii) : bool :=
  is_digit c || between 97 102 c || between 65 70 c.

Definition hex_digit (c : ascii) : Z :=
  let n := Z.of_nat (code c) in
  if is_digit c then n - 48 else if is_lower c then n - 87 else n - 55.

Fixpoint hex_numeral (acc : Z) (hs : string) : Z :=
  match hs with
  | EmptyString => acc
  | String c hs' => hex_numeral (16 * acc + hex_digit c) hs'
  end.

Definition hex_value (hs : string) : Z := hex_numeral 0 hs.

Definition no_leading_hex_digit (s : string) : bool :=
  match s with
  | EmptyString => true
  | String c _ => negb (is_hex_digit c)
  end.

Definition is_letter (c : ascii) : bool := is_upper c || is_lower c.

(** The characters on which [toUpperCase], [trim] and [parseInt] above are
    JavaScript's: outside ASCII the real functions also map letters such as
    U+00DF and strip spaces such as U+00A0, which this model does not. *)
Definition is_ascii (c : ascii) : bool := (code c <? 128)%nat.

(** An integer in decimal, as template literals and [toString] print it
    (no exponent: the handlers print integers below 10^21 only). *)
Definition decimal (n : Z) : string := NilZero.string_of_int (Z.to_int n).

(** [n.toString()] on the result of [parseInt]. *)
Definition toString (n : option Z) : string :=
  match n with
  | Some n => decimal n
  | None => "NaN"
  end.

(** *** Parsed JSON values *)

Inductive number :=
  | Finite (q : Q)
  | Infinite (negative : bool).

(** What [JSON.parse] yields.  An object lists its properties in order,
    each key once; a number that overflows a double is an infinity. *)
#[warnings="-register-all"]
Inductive json :=
  | JNull
  | JBool (b : bool)
  | JNum (n : number)
  | JStr (s : string)
  | JArr (items : list json)
  | JObj (fields : list (string * json)).

Fixpoint assoc {A} (k : string) (l : list (string * A)) : option A :=
  match l with
  | [] => None
  | (k', v) :: l' => if String.eqb k k' then Some v else assoc k l'
  end.

(** [v.k] for a property name [k] that no prototype defines ([price],
    [exchange], [transcript]); [None] is [undefined].  Only evaluated on
    values other than [null]. *)
Definition prop (v : json) (k : string) : option json :=
  match v with
  | JObj fields => assoc k fields
  | _ => None
  end.

Definition truthy (v : json) : bool :=
  match v with
  | JNull => false
  | JBool b => b
  | JNum (Finite q) => negb (Qnum q =? 0)
  | JNum (Infinite _) => true
  | JStr s => negb (String.eqb s EmptyString)
  | JArr _ | JObj _ => true
  end.

(** Truthiness of a possibly undefined value. *)
Definition truthy_opt (v : option json) : bool :=
  match v with
  | Some v => truthy v
  | None => false
  end.

(** [typeof v === 'undefined']. *)
Definition is_undefined (v : option json) : bool :=
  match v with
  | Some _ => false
  | None => true
  end.

Definition is_finite_number (v : json) : bool :=
  match v with
  | JNum (Finite _) => true
  | _ => false
  end.

(** *** Exceptions *)

Record Error := { message : string; stack : string }.

(** [new Error(msg)]; of the stack only the first line is kept. *)
Definition new_Error (msg : string) : Error :=
  {| message := msg; stack := "Error: " +:+ msg |}.

Definition new_TypeError (msg : string) : Error :=
  {| message := msg; stack := "TypeError: " +:+ msg |}.

(** How an asynchronous computation ends: with a value, with an exception,
    or never (it awaits a promise that does not settle). *)
Inductive completion (A : Type) :=
  | Return (a : A)
  | Throw (e : Error)
  | Pending.
Arguments Return {A} a.
Arguments Throw {A} e.
Arguments Pending {A}.

(** *** fetch *)

Record Request := {
  url : string;
  method : string;
  headers : list (string * string)
}.

(** What [response.json()] yields: a parsed value, or a rejection when the
    body is not JSON. *)
Inductive payload :=
  | Parsed (v : json)
  | Malformed (e : Error).

Record Response := {
  status : Z;
  statusText : string;
  body : payload
}.

(** [response.ok]: the status is in the range 200-299. *)
Definition ok (r : Response) : bool := (200 <=? status r) && (status r <=? 299).

(** A call of [fetch] is answered, or rejects (network failure). *)
Inductive answer :=
  | Answered (r : Response)
  | Rejected (e : Error).

(** The upstream service as seen from one handler invocation. *)
Definition network := Request → answer.

(** *** Computations that may throw and that record outbound calls

    The state is the list of outbound requests issued so far, oldest
    first. *)

Definition IO (A : Type) : Type := list Request → completion A * list Request.

Definition ret {A} (a : A) : IO A := λ calls, (Return a, calls).

Definition throw {A} (e : Error) : IO A := λ calls, (Throw e, calls).

Definition bind {A B} (m : IO A) (k : A → IO B) : IO B :=
  λ calls,
    match m calls with
    | (Return a, calls') => k a calls'
    | (Throw e, calls') => (Throw e, calls')
    | (Pending, calls') => (Pending, calls')
    end.

(** [try { m } catch (error) { h error }]. *)
Definition try_catch {A} (m : IO A) (h : Error → IO A) : IO A :=
  λ calls,
    match m calls with
    | (Return a, calls') => (Return a, calls')
    | (Throw e, calls') => h e calls'
    | (Pending, calls') => (Pending, calls')
    end.

Definition fetch (net : network) (rq : Request) : IO Response :=
  λ calls,
    match net rq with
    | Answered r => (Return r, (calls ++ [rq])%list)
    | Rejected e => (Throw e, (calls ++ [rq])%list)
    end.

(** [await response.json()]. *)
Definition json_of (r : Response) : IO json :=
  match body r with
  | Parsed v => ret v
  | Malformed e => throw e
  end.

(** [array.map(async (a) => ...)]: the tasks start in array order, and each
    one issues its request before the next one starts.  The list holds the
    values the tasks settle with; the order in which they settle is the
    business of [Promise_all] below. *)
Fixpoint mapIO {A B} (f : A → IO B) (l : list A) : IO (list B) :=
  match l with
  | [] => ret []
  | a :: l' => bind (f a) (λ b, bind (mapIO f l') (λ bs, ret (b :: bs)))
  end.

(** *** Promise.all

    Every promise of the input array settles with its value at some point;
    [schedule] lists the indices of the promises in the order in which they
    settle.  A settled promise stores its value under its own index, and the
    combined promise resolves, with the values in index order, once every
    index has a value.  [None]: some promise never settles and the caller
    waits forever. *)

Definition settle {A} (promises : list A) (values : gmap nat A) (i : nat)
    : gmap nat A :=
  match promises !! i with
  | Some v => <[i := v]> values
  | None => values
  end.

Fixpoint collect {A} (values : gmap nat A) (indices : list nat)
    : option (list A) :=
  match indices with
  | [] => Some []
  | i :: rest =>
      match values !! i, collect values rest with
      | Some v, Some vs => Some (v :: vs)
      | _, _ => None
      end
  end.

Definition Promise_all {A} (schedule : list nat) (promises : list A)
    : option (list A) :=
  collect (foldl (settle promises) ∅ schedule) (seq 0 (length promises)).

(** [await Promise.all(promises)]. *)
Definition await_all {A} (schedule : list nat) (promises : list A)
    : IO (list A) :=
  λ calls,
    match Promise_all schedule promises with
    | Some values => (Return values, calls)
    | None => (Pending, calls)
    end.

End JS.

Notation "'let*' x ':=' m 'in' k" := (JS.bind m (λ x, k))
  (at level 10, x name, m at level 100, k at level 200).

(** ** The serverless platform: requests, environment, responses *)

Module Http.

(** A value of [req.query]: the parameter is missing, given once, or given
    several times (an array of strings). *)
Inductive qparam :=
  | Absent
  | Single (s : string)
  | Multi (l : list string).

Record request := {
  method : string;
  query : string → qparam
}.

(** [process.env]. *)
Record environment := {
  API_KEY : option string;
  NODE_ENV : option string
}.

Inductive body (D : Type) :=
  | Empty
  | Json (d : D).
Arguments Empty {D}.
Arguments Json {D} d.

Record response (D : Type) := {
  headers : list (string * string);
  statusCode : Z;
  content : body D
}.
Arguments headers {D} r.
Arguments statusCode {D} r.
Arguments content {D} r.

(** [res.setHeader(name, value)] on the header list of [res]. *)
Definition setHeader (name value : string) (hs : list (string * string))
    : list (string * string) :=
  (filter (λ h, h.1 ≠ name) hs ++ [(name, value)])%list.

(** [res.status(code).end()] and [res.status(code).json(d)]. *)
Definition end_ {D} (hs : list (string * string)) (code : Z) : response D :=
  {| headers := hs; statusCode := code; content := Empty |}.

Definition json {D} (hs : list (string * string)) (code : Z) (d : D)
    : response D :=
  {| headers := hs; statusCode := code; content := Json d |}.

(** The headers both handlers set first. *)
Definition cors : list (string * string) :=
  setHeader "Access-Control-Allow-Headers" "Content-Type"
    (setHeader "Access-Control-Allow-Methods" "GET, OPTIONS"
       (setHeader "Access-Control-Allow-Origin" "*" [])).

(** [!v] for a query value: a missing parameter and the empty string are
    falsy, an array is truthy. *)
Definition truthy (v : qparam) : bool :=
  match v with
  | Absent => false
  | Single s => negb (String.eqb s EmptyString)
  | Multi _ => true
  end.

(** [!apiKey]. *)
Definition configured (key : option string) : option string :=
  match key with
  | Some k => if String.eqb k EmptyString then None else Some k
  | None => None
  end.

Definition development (env : environment) : bool :=
  match NODE_ENV env with
  | Some v => String.eqb v "development"
  | None => false
  end.

End Http.

(** ** api/stocks.js: the price fan-out handler *)

Module Stocks.
Import JS.

Record Company := { ticker : string; name : string }.

Definition COMPETITORS : list Company := [
  {| ticker := "AAPL"; name := "Apple Inc." |};
  {| ticker := "MSFT"; name := "Microsoft Corporation" |};
  {| ticker := "GOOGL"; name := "Alphabet Inc. (Google)" |};
  {| ticker := "META"; name := "Meta Platforms Inc." |};
  {| ticker := "AMZN"; name := "Amazon.com Inc." |}
].

(** The object built for one company.  [exchange] and [error] are optional
    keys; [price] holds what the expression on its right evaluates to, with
    [None] for [undefined] and [Some JNull] for [null]. *)
Record StockResult := {
  result_ticker : string;
  companyName : string;
  price : option json;
  exchange : option json;
  success : bool;
  error : option string
}.

(** The JSON documents the handler sends. *)
Inductive document :=
  | Failure (error message : string) (details : option string)
  | Unavailable (error message : string) (details : list StockResult)
  | Prices (timestamp : string) (dataPoints successfulFetches : nat)
      (stocks : list StockResult).

Definition misconfigured : document :=
  Failure "Server configuration error"
    "API authentication is not properly configured" None.

Definition method_not_allowed : document :=
  Failure "Method not allowed" "This endpoint only accepts GET requests" None.

Definition stockprice_request (ticker apiKey : string) : Request :=
  {| url := "https://api.api-ninjas.com/v1/stockprice?ticker=" +:+ ticker;
     method := "GET";
     headers := [("X-Api-Key", apiKey); ("Content-Type", "application/json")] |}.

Definition fetchStockPrice (net : network) (ticker apiKey : string) : IO json :=
  try_catch
    (let* response := fetch net (stockprice_request ticker apiKey) in
     if negb (ok response) then
       throw (new_Error ("API request failed for " +:+ ticker +:+ ": "
                         +:+ decimal (status response) +:+ " "
                         +:+ statusText response))
     else
       let* data := json_of response in
       if negb (truthy data) || is_undefined (prop data "price") then
         throw (new_Error ("Invalid data received for " +:+ ticker))
       else ret data)
    (λ error, throw error).

(** The body of [COMPETITORS.map(async (company) => ...)]. *)
Definition stockPromise (net : network) (apiKey : string) (company : Company)
    : IO StockResult :=
  try_catch
    (let* stockData := fetchStockPrice net (ticker company) apiKey in
     ret {| result_ticker := ticker company;
            companyName := name company;
            price := prop stockData "price";
            exchange := if truthy_opt (prop stockData "exchange")
                        then prop stockData "exchange" else None;
            success := true;
            error := None |})
    (λ error,
     ret {| result_ticker := ticker company;
            companyName := name company;
            price := Some JNull;
            exchange := None;
            success := false;
            error := Some (message error) |}).

(** The handler.  [now] is what [new Date().toISOString()] returns and
    [schedule] the order in which the five promises settle.  Run on the empty
    list of calls, it tells how the handler's own promise ends and which
    requests went out. *)
Definition handler (env : Http.environment) (net : network) (now : string)
    (schedule : list nat) (req : Http.request) : IO (Http.response document) :=
  let res := Http.cors in
  if String.eqb (Http.method req) "OPTIONS" then ret (Http.end_ res 200)
  else if negb (String.eqb (Http.method req) "GET") then
    ret (Http.json res 405 method_not_allowed)
  else
    try_catch
      match Http.configured (Http.API_KEY env) with
      | None =>
          ret (Http.json res 500 misconfigured)
      | Some apiKey =>
          let* stockPromises := mapIO (stockPromise net apiKey) COMPETITORS in
          let* stockResults := await_all schedule stockPromises in
          let successfulFetches := filter (λ stock, success stock = true) stockResults in
          if (length successfulFetches =? 0)%nat then
            ret (Http.json res 503
                   (Unavailable "Service unavailable"
                      "Unable to fetch any stock data at this time. Please try again later."
                      stockResults))
          else
            ret (Http.json res 200
                   (Prices now (length stockResults) (length successfulFetches)
                      stockResults))
      end
      (λ error,
       ret (Http.json res 500
              (Failure "Internal server error"
                 "An unexpected error occurred while fetching stock data"
                 (if Http.development env then Some (message error) else None)))).

(** *** Vocabulary for the properties of the handler *)

(** How the fetch for one company ends, and whether it fails (throws). *)
Definition outcome (net : network) (apiKey : string) (company : Company)
    : completion json :=
  (fetchStockPrice net (ticker company) apiKey []).1.

Definition failed (net : network) (apiKey : string) (company : Company) : bool :=
  match outcome net apiKey company with
  | Return _ => false
  | _ => true
  end.

(** The runtime's own rejections (a network failure, a body that is not
    JSON) carry a message. *)
Definition runtime_messages (net : network) : Prop :=
  ∀ rq,
    match net rq with
    | Rejected e => message e ≠ EmptyString
    | Answered r =>
        match body r with
        | Malformed e => message e ≠ EmptyString
        | Parsed _ => True
        end
    end.

(** The invariant of [StockResult] as the specification states it, to be
    compared with what [stockPromise] builds: a success has a finite number
    as price and no error, a failure has the price [null] and a non-empty
    error message. *)
Definition spec_invariant (entry : StockResult) : Prop :=
  (success entry = true →
   (∃ v, price entry = Some v ∧ is_finite_number v = true) ∧
   error entry = None) ∧
  (success entry = false →
   price entry = Some JNull ∧
   ∃ msg, error entry = Some msg ∧ msg ≠ EmptyString).

(** Every promise settles exactly once, in some order. *)
Definition all_settle (schedule : list nat) : Prop :=
  schedule ≡ₚ seq 0 (length COMPETITORS).

(** The outbound requests of one invocation, in the order of issue. *)
Definition outbound (apiKey : string) : list Request :=
  map (λ company, stockprice_request (ticker company) apiKey) COMPETITORS.

End Stocks.

(** ** api/transcript.js: the earnings-transcript handler *)

Module Transcript.
Import JS.

(** The JSON documents the handler sends: an error envelope, or the upstream
    object with [fetchedAt] added. *)
Inductive document :=
  | Failure (error message : string) (details : option string)
  | Transcript (fields : list (string * json)).

Definition misconfigured : document :=
  Failure "Server configuration error"
    "API authentication is not properly configured" None.

Definition method_not_allowed : document :=
  Failure "Method not allowed" "This endpoint only accepts GET requests" None.

Definition transcript_request (ticker year quarter apiKey : string) : Request :=
  {| url := "https://api.api-ninjas.com/v1/earningstranscript?ticker=" +:+ ticker
            +:+ "&year=" +:+ year +:+ "&quarter=" +:+ quarter;
     method := "GET";
     headers := [("X-Api-Key", apiKey); ("Content-Type", "application/json")] |}.

(** The message thrown on an upstream 404 (the template literal of the
    first [throw] of [fetchEarningsTranscript]). *)
Definition no_transcript_found (ticker year quarter : string) : string :=
  "No transcript found for " +:+ ticker +:+ " " +:+ year +:+ " Q" +:+ quarter
  +:+ ". The earnings call may not be available yet or the parameters may be incorrect.".

Definition fetchEarningsTranscript (net : network)
    (ticker year quarter apiKey : string) : IO json :=
  try_catch
    (let* response := fetch net (transcript_request ticker year quarter apiKey) in
     if negb (ok response) then
       if status response =? 404 then
         throw (new_Error (no_transcript_found ticker year quarter))
       else
         throw (new_Error ("API request failed: " +:+ decimal (status response)
                           +:+ " " +:+ statusText response))
     else
       let* data := json_of response in
       if negb (truthy data) || negb (truthy_opt (prop data "transcript")) then
         throw (new_Error ("No transcript data available for " +:+ ticker +:+ " "
                           +:+ year +:+ " Q" +:+ quarter))
       else ret data)
    (λ error, throw error).

(** [ticker.toUpperCase().trim()] on a query value. *)
Definition upper_trim (ticker : Http.qparam) : IO string :=
  match ticker with
  | Http.Single s => ret (trim (toUpperCase s))
  | Http.Multi _ =>
      throw (new_TypeError "ticker.toUpperCase is not a function")
  | Http.Absent =>
      throw (new_TypeError
               "Cannot read properties of undefined (reading 'toUpperCase')")
  end.

(** [parseInt(v)] on a query value, which is first converted to a string. *)
Definition parseInt_query (v : Http.qparam) : option Z :=
  match v with
  | Http.Single s => parseInt s
  | Http.Multi l => parseInt (join "," l)
  | Http.Absent => parseInt "undefined"
  end.

(** [/^[A-Z]{1,5}$/.test(s)]. *)
Definition ticker_pattern (s : string) : bool :=
  all_chars is_upper s && (1 <=? String.length s)%nat && (String.length s <=? 5)%nat.

(** [isNaN(n) || n < lo || n > hi]. *)
Definition out_of_range (n : option Z) (lo hi : Z) : bool :=
  match n with
  | None => true
  | Some n => (n <? lo) || (hi <? n)
  end.

(** [{ ...obj, key: v }] on the fields of [obj]. *)
Fixpoint define (key : string) (v : json) (fields : list (string * json))
    : list (string * json) :=
  match fields with
  | [] => [(key, v)]
  | (k, w) :: rest =>
      if String.eqb k key then (k, v) :: rest else (k, w) :: define key v rest
  end.

(** The own enumerable properties a spread copies; the handler spreads a
    value whose [transcript] property is truthy, which only an object has. *)
Definition spread (v : json) : list (string * json) :=
  match v with
  | JObj fields => fields
  | _ => []
  end.

(** The handler.  [now] is what [new Date().toISOString()] returns.  Run on
    the empty list of calls, it tells how the handler's own promise ends and
    which requests went out. *)
Definition handler (env : Http.environment) (net : network) (now : string)
    (req : Http.request) : IO (Http.response document) :=
  let res := Http.cors in
  if String.eqb (Http.method req) "OPTIONS" then ret (Http.end_ res 200)
  else if negb (String.eqb (Http.method req) "GET") then
    ret (Http.json res 405 method_not_allowed)
  else
    try_catch
      match Http.configured (Http.API_KEY env) with
      | None =>
          ret (Http.json res 500 misconfigured)
      | Some apiKey =>
          let ticker := Http.query req "ticker" in
          let year := Http.query req "year" in
          let quarter := Http.query req "quarter" in
          if negb (Http.truthy ticker) then
            ret (Http.json res 400 (Failure "Missing parameter"
                   "Ticker symbol is required" None))
          else if negb (Http.truthy year) then
            ret (Http.json res 400 (Failure "Missing parameter"
                   "Year is required" None))
          else if negb (Http.truthy quarter) then
            ret (Http.json res 400 (Failure "Missing parameter"
                   "Quarter is required" None))
          else
            let* tickerUpper := upper_trim ticker in
            let yearNum := parseInt_query year in
            let quarterNum := parseInt_query quarter in
            if negb (ticker_pattern tickerUpper) then
              ret (Http.json res 400 (Failure "Invalid parameter"
                   "Ticker must be 1-5 letters" None))
            else if out_of_range yearNum 2000 2030 then
              ret (Http.json res 400 (Failure "Invalid parameter"
                   "Year must be between 2000 and 2030" None))
            else if out_of_range quarterNum 1 4 then
              ret (Http.json res 400 (Failure "Invalid parameter"
                   "Quarter must be between 1 and 4" None))
            else
              let* transcriptData :=
                fetchEarningsTranscript net tickerUpper
                  (toString yearNum) (toString quarterNum) apiKey in
              ret (Http.json res 200
                     (Transcript
                        (define "fetchedAt" (JStr now) (spread transcriptData))))
      end
      (λ error,
       let statusCode :=
         if includes "not found" (message error) then 404 else 500 in
       ret (Http.json res statusCode
              (Failure
                 (if statusCode =? 404 then "Not found"
                  else "Internal server error")
                 (message error)
                 (if Http.development env then Some (stack error) else None)))).

(** *** Vocabulary for the properties of the handler *)

(** The three parameters as the handler reads them once validation has
    passed: the normalised ticker and the two parsed numbers. *)
Definition normalised (t : string) : string := trim (toUpperCase t).

Definition in_range (n lo hi : Z) : Prop := lo ≤ n ≤ hi.

End Transcript.

(** ** Scenarios *)

Module Scenario.
Import JS.

Definition env : Http.environment :=
  {| Http.API_KEY := Some "secret"; Http.NODE_ENV := None |}.

Definition no_key : Http.environment :=
  {| Http.API_KEY := None; Http.NODE_ENV := None |}.

Definition get (ticker year quarter : Http.qparam) : Http.request :=
  {| Http.method := "GET";
     Http.query := λ key,
       if String.eqb key "ticker" then ticker
       else if String.eqb key "year" then year
       else if String.eqb key "quarter" then quarter
       else Http.Absent |}.

Definition with_method (m : string) : Http.request :=
  {| Http.method := m; Http.query := λ _, Http.Absent |}.

Definition answers (code : Z) (text : string) (data : payload) : network :=
  λ _, Answered {| status := code; statusText := text; body := data |}.

(** The upstream knows the price of MSFT only. *)
Definition only_MSFT : network :=
  λ rq,
    if String.eqb (url rq) "https://api.api-ninjas.com/v1/stockprice?ticker=MSFT"
    then Answered {| status := 200; statusText := "OK";
                     body := Parsed (JObj [("price", JNum (Finite (Qmake 415 1)));
                                           ("exchange", JStr "NASDAQ")]) |}
    else Answered {| status := 500; statusText := "Internal Server Error";
                     body := Malformed (new_Error "Unexpected end of JSON input") |}.

(** A 200 answer whose [price] is [null]. *)
Definition null_price : network :=
  answers 200 "OK" (Parsed (JObj [("price", JNull)])).

(** A 200 answer whose [exchange] is the empty string. *)
Definition empty_exchange : network :=
  answers 200 "OK"
    (Parsed (JObj [("price", JNum (Finite (Qmake 190 1)));
                   ("exchange", JStr EmptyString)])).

(** The upstream has no transcript. *)
Definition not_found : network :=
  answers 404 "Not Found" (Parsed (JObj [("error", JStr "Not Found")])).

Definition AAPL : Stocks.Company :=
  {| Stocks.ticker := "AAPL"; Stocks.name := "Apple Inc." |}.

(** The upstream has the transcript, and stamps it itself. *)
Definition with_transcript : network :=
  answers 200 "OK"
    (Parsed (JObj [("date", JStr "2024-04-25");
                   ("fetchedAt", JStr "2024-04-26T08:00:00.000Z");
                   ("transcript", JStr "Good afternoon, and welcome.")])).

(** A 200 answer with an empty object. *)
Definition empty_object : network := answers 200 "OK" (Parsed (JObj [])).

(** A gateway in front of the upstream cannot reach it. *)
Definition gateway : network :=
  answers 502 "Upstream host not found"
    (Malformed (new_Error "Unexpected token < in JSON at position 0")).

(** The network is down. *)
Definition offline : network :=
  λ _, Rejected (new_TypeError "fetch failed").

(** A development deployment. *)
Definition developing : Http.environment :=
  {| Http.API_KEY := Some "secret"; Http.NODE_ENV := Some "development" |}.

End Scenario.

(** * Properties *)

(** ** Promise.all returns the values in input order *)

Section PromiseAll.
Context {A : Type}.
Implicit Types (promises values : list A) (schedule : list nat).

Lemma settled_lookup promises schedule (m : gmap nat A) i :
  foldl (JS.settle promises) m schedule !! i =
    if decide (i ∈ schedule ∧ (i < length promises)%nat)
    then promises !! i else m !! i.
Proof.
  revert m. induction schedule as [|j schedule IH]; intros m; cbn [foldl].
  - rewrite decide_False; [done|]. intros [H _]. by apply elem_of_nil in H.
  - rewrite IH. unfold JS.settle.
    destruct (decide (i ∈ schedule ∧ (i < length promises)%nat))
      as [[Hin Hlt]|Hnot].
    { rewrite decide_True; [done|]. split; [by right|done]. }
    destruct (decide (i = j)) as [->|Hne].
    + destruct (promises !! j) as [v|] eqn:Hj.
      * rewrite lookup_insert_eq, decide_True; [done|].
        split; [left|]. by eapply lookup_lt_Some.
      * rewrite decide_False; [done|]. intros [_ Hlt].
        apply lookup_ge_None in Hj. lia.
    + rewrite decide_False.
      * destruct (promises !! j); [by rewrite lookup_insert_ne|done].
      * intros [Hin Hlt]. apply elem_of_cons in Hin as [?|?]; [done|].
        by apply Hnot.
Qed.

Lemma collect_Some (m : gmap nat A) indices values :
  JS.collect m indices = Some values ↔
  Forall2 (λ i v, m !! i = Some v) indices values.
Proof.
  revert values. induction indices as [|i indices IH]; intros values; simpl.
  - split.
    + intros [= <-]. constructor.
    + intros H. by inversion H.
  - destruct (m !! i) as [v|] eqn:Hi.
    + destruct (JS.collect m indices) as [vs|] eqn:Hc.
      * split.
        -- intros [= <-]. constructor; [done|]. by apply IH.
        -- intros H. inversion H as [|? w ? ws Hw Hws]; subst.
           apply IH in Hws. rewrite Hi in Hw. congruence.
      * split; [done|].
        intros H. inversion H as [|? w ? ws Hw Hws]; subst.
        apply IH in Hws. done.
    + split; [done|].
      intros H. inversion H as [|? w ? ws Hw Hws]; subst.
      rewrite Hi in Hw. done.
Qed.

(** Whatever the order of completion, a resolved [Promise.all] holds the
    values of the promises in the order of the input array. *)
Lemma Promise_all_ordered schedule promises values :
  JS.Promise_all schedule promises = Some values → values = promises.
Proof.
  unfold JS.Promise_all. intros H%collect_Some.
  apply list_eq. intros i.
  destruct (decide (i < length promises)%nat) as [Hlt|Hge].
  - eapply Forall2_lookup_l in H as (v & Hv & Hm).
    2:{ apply lookup_seq. done. }
    simpl in Hm. rewrite settled_lookup in Hm.
    case_decide; [congruence|]. by rewrite lookup_empty in Hm.
  - apply Forall2_length in H. rewrite length_seq in H.
    rewrite !lookup_ge_None_2; [done|lia..].
Qed.

(** The combined promise resolves once every promise has settled. *)
Lemma Promise_all_resolves schedule promises :
  (∀ i, (i < length promises)%nat → i ∈ schedule) →
  JS.Promise_all schedule promises = Some promises.
Proof.
  intros Hall. unfold JS.Promise_all. apply collect_Some.
  apply Forall2_lookup. intros i.
  destruct (promises !! i) as [v|] eqn:Hi.
  - apply lookup_lt_Some in Hi as Hlt.
    rewrite lookup_seq_lt by done. constructor.
    rewrite settled_lookup. case_decide as H; [done|].
    exfalso. apply H. split; [by apply Hall|done].
  - apply lookup_ge_None in Hi as Hge.
    rewrite lookup_seq_ge by done. constructor.
Qed.

Lemma Promise_all_permutation schedule promises :
  schedule ≡ₚ seq 0 (length promises) →
  JS.Promise_all schedule promises = Some promises.
Proof.
  intros Hperm. apply Promise_all_resolves. intros i Hi.
  rewrite Hperm. apply elem_of_seq. lia.
Qed.

End PromiseAll.

(** ** Strings and parseInt *)

Module StringFacts.
Import JS.

Ltac each_char c := destruct c as [[] [] [] [] [] [] [] []].

Lemma append_cons c (s t : string) : String c s +:+ t = String c (s +:+ t).
Proof. reflexivity. Qed.

Lemma append_nil (t : string) : EmptyString +:+ t = t.
Proof. reflexivity. Qed.

Lemma upper_is_not_n c : is_upper c = true → Ascii.eqb "n" c = false.
Proof. each_char c; vm_compute; congruence. Qed.

Lemma digit_is_not_space c : is_digit c = true → is_space c = false.
Proof. each_char c; vm_compute; congruence. Qed.

Lemma digit_value_digit c :
  is_digit c = true → digit_value 10 c = Some (Z.of_nat (code c) - 48).
Proof. each_char c; vm_compute; congruence. Qed.

Lemma digit_value_other c : is_digit c = false → digit_value 10 c = None.
Proof. each_char c; vm_compute; congruence. Qed.

(** No occurrence of "not found" starts inside a run of upper-case
    letters. *)
Lemma includes_skip_upper (letters rest : string) :
  all_chars is_upper letters = true →
  includes "not found" (letters +:+ rest) = includes "not found" rest.
Proof.
  induction letters as [|c letters IH]; [done|].
  cbn [all_chars]. intros [Hc Hrest]%andb_true_iff.
  change (String c letters +:+ rest) with (String c (letters +:+ rest)).
  cbn [includes startsWith]. rewrite (upper_is_not_n c Hc). cbn [andb orb].
  by apply IH.
Qed.

(** [read_digits] on a run of decimal digits followed by something else. *)
Lemma read_digits_numeral (ds rest : string) (acc : Z) :
  all_chars is_digit ds = true →
  no_leading_digit rest = true →
  read_digits 10 (Some acc) (ds +:+ rest) = Some (numeral acc ds).
Proof.
  intros Hds Hrest. revert acc Hds.
  induction ds as [|c ds IH]; intros acc Hds.
  - change (EmptyString +:+ rest) with rest. destruct rest as [|c rest]; [done|].
    cbn in Hrest. apply negb_true_iff in Hrest.
    cbn [read_digits numeral]. by rewrite (digit_value_other c Hrest).
  - cbn [all_chars] in Hds. apply andb_true_iff in Hds as [Hc Hds].
    change (String c ds +:+ rest) with (String c (ds +:+ rest)).
    cbn [read_digits numeral]. rewrite (digit_value_digit c Hc).
    cbn [default]. by apply IH.
Qed.

(** [parseInt] reads the leading run of decimal digits of a string and
    ignores what follows. *)
Lemma parseInt_numeral (ds rest : string) :
  all_chars is_digit ds = true →
  no_leading_digit rest = true →
  0 < numeral_value ds →
  parseInt (ds +:+ rest) = Some (numeral_value ds).
Proof.
  intros Hds Hrest Hpos. unfold numeral_value in *.
  destruct ds as [|c ds]; [done|].
  cbn [all_chars] in Hds. apply andb_true_iff in Hds as [Hc Hds].
  change (String c ds +:+ rest) with (String c (ds +:+ rest)).
  unfold parseInt. cbn [trimStart]. rewrite (digit_is_not_space c Hc).
  assert (read_sign (String c (ds +:+ rest)) = (1, String c (ds +:+ rest)))
    as ->.
  { clear -Hc. each_char c; vm_compute in Hc; try congruence; reflexivity. }
  assert (read_radix (String c (ds +:+ rest)) = (10, String c (ds +:+ rest)))
    as ->.
  { destruct ds as [|c' ds].
    - cbn [numeral] in Hpos.
      clear -Hc Hpos. each_char c; vm_compute in Hc; try congruence;
        try reflexivity. vm_compute in Hpos. congruence.
    - cbn [all_chars] in Hds. apply andb_true_iff in Hds as [Hc' _].
      change (String c' ds +:+ rest) with (String c' (ds +:+ rest)).
      clear -Hc Hc'. each_char c; vm_compute in Hc; try congruence;
        try reflexivity;
        each_char c'; vm_compute in Hc'; try congruence; reflexivity. }
  cbn [read_digits]. rewrite (digit_value_digit c Hc). cbn [default numeral].
  rewrite (read_digits_numeral ds rest _ Hds Hrest). f_equal. lia.
Qed.

End StringFacts.

(** ** The price fan-out handler *)

Module StocksFacts.
Import JS Stocks.

Ltac run_io :=
  unfold fetchStockPrice, stockPromise, try_catch, bind, fetch, json_of,
    throw, ret;
  cbn beta.

Section OneCompany.
Variables (net : network) (apiKey : string).

(** One outbound request is issued, whatever was issued before, and the
    fetch returns or throws. *)
Lemma fetchStockPrice_run ticker calls :
  fetchStockPrice net ticker apiKey calls =
    ((fetchStockPrice net ticker apiKey []).1,
     (calls ++ [stockprice_request ticker apiKey])%list).
Proof.
  run_io. destruct (net _) as [r|e]; [|done].
  destruct (ok r); [|done]. cbn.
  destruct (body r) as [v|e]; [|done].
  destruct (truthy v); [|done]. cbn.
  destruct (prop v "price"); done.
Qed.

Lemma fetchStockPrice_settles ticker :
  (fetchStockPrice net ticker apiKey []).1 ≠ Pending.
Proof.
  run_io. destruct (net _) as [r|e]; [|done].
  destruct (ok r); [|done]. cbn.
  destruct (body r) as [v|e]; [|done].
  destruct (truthy v); [|done]. cbn.
  destruct (prop v "price"); done.
Qed.

(** A fetch that returns hands over the parsed body of a 2xx answer: a
    truthy value with a [price] property. *)
Lemma fetchStockPrice_Return ticker data :
  (fetchStockPrice net ticker apiKey []).1 = Return data →
  ∃ r price,
    net (stockprice_request ticker apiKey) = Answered r ∧
    ok r = true ∧ body r = Parsed data ∧
    truthy data = true ∧ prop data "price" = Some price.
Proof.
  run_io. destruct (net _) as [r|e]; [|done].
  destruct (ok r) eqn:Hok; [|done]. cbn.
  destruct (body r) as [v|e] eqn:Hbody; [|done].
  destruct (truthy v) eqn:Htruthy; [|done]. cbn.
  destruct (prop v "price") as [p|] eqn:Hprice; [|done].
  cbn. intros [= <-]. by exists r, p.
Qed.

(** The per-company task never throws: it settles with one entry. *)
Lemma stockPromise_run company calls :
  stockPromise net apiKey company calls =
    ((stockPromise net apiKey company []).1,
     (calls ++ [stockprice_request (ticker company) apiKey])%list).
Proof.
  unfold stockPromise, try_catch, bind.
  rewrite fetchStockPrice_run.
  rewrite (fetchStockPrice_run _ []).
  destruct (fetchStockPrice net (ticker company) apiKey []).1; done.
Qed.

(** The entry of a company, read off the outcome of its fetch. *)
Lemma stockPromise_value company :
  (stockPromise net apiKey company []).1 =
    match outcome net apiKey company with
    | Return stockData =>
        Return {| result_ticker := ticker company;
                  companyName := name company;
                  price := prop stockData "price";
                  exchange := if truthy_opt (prop stockData "exchange")
                              then prop stockData "exchange" else None;
                  success := true;
                  error := None |}
    | Throw e =>
        Return {| result_ticker := ticker company;
                  companyName := name company;
                  price := Some JNull;
                  exchange := None;
                  success := false;
                  error := Some (message e) |}
    | Pending => Pending
    end.
Proof.
  unfold outcome, stockPromise, try_catch, bind.
  rewrite fetchStockPrice_run.
  destruct (fetchStockPrice net (ticker company) apiKey []).1; done.
Qed.

Lemma stockPromise_settles company :
  ∃ entry, (stockPromise net apiKey company []).1 = Return entry.
Proof.
  rewrite stockPromise_value.
  pose proof (fetchStockPrice_settles (ticker company)) as Hs.
  fold (outcome net apiKey company) in Hs.
  destruct (outcome net apiKey company); [eauto..|done].
Qed.

Lemma stockPromise_entry company entry :
  (stockPromise net apiKey company []).1 = Return entry →
  result_ticker entry = ticker company ∧
  companyName entry = name company ∧
  success entry = negb (failed net apiKey company).
Proof.
  rewrite stockPromise_value. unfold failed.
  destruct (outcome net apiKey company); [| |done]; by intros [= <-].
Qed.

End OneCompany.

Lemma mapIO_run {A B} (f : A → IO B) (rq : A → Request) (l : list A) :
  (∀ a, ∃ b, ∀ calls, f a calls = (Return b, (calls ++ [rq a])%list)) →
  ∃ bs,
    Forall2 (λ a b, ∀ calls, f a calls = (Return b, (calls ++ [rq a])%list)) l bs ∧
    ∀ calls, mapIO f l calls = (Return bs, (calls ++ map rq l)%list).
Proof.
  intros Hf. induction l as [|a l (bs & Hbs & Hrun)].
  - exists []. split; [constructor|]. intros calls. cbn.
    by rewrite app_nil_r.
  - destruct (Hf a) as [b Hb]. exists (b :: bs). split; [by constructor|].
    intros calls. cbn. unfold bind. rewrite Hb, Hrun. unfold ret.
    by rewrite <- app_assoc.
Qed.

(** A GET request under a configured key: the five requests go out in the
    order of [COMPETITORS], and the reply is built from the five entries in
    that same order once all promises have settled. *)
Lemma handler_GET env net now schedule req apiKey :
  Http.method req = "GET" →
  Http.configured (Http.API_KEY env) = Some apiKey →
  ∃ entries,
    Forall2 (λ company entry,
               (stockPromise net apiKey company []).1 = Return entry)
      COMPETITORS entries ∧
    handler env net now schedule req [] =
      (match Promise_all schedule entries with
       | Some _ =>
           let successes := filter (λ stock, success stock = true) entries in
           if (length successes =? 0)%nat then
             Return (Http.json Http.cors 503
                       (Unavailable "Service unavailable"
                          "Unable to fetch any stock data at this time. Please try again later."
                          entries))
           else
             Return (Http.json Http.cors 200
                       (Prices now (length entries) (length successes) entries))
       | None => Pending
       end, outbound apiKey).
Proof.
  intros Hget Hkey.
  destruct (mapIO_run (stockPromise net apiKey)
              (λ company, stockprice_request (ticker company) apiKey)
              COMPETITORS) as (entries & Hentries & Hrun).
  { intros company.
    destruct (stockPromise_settles net apiKey company) as [entry Hentry].
    exists entry. intros calls. by rewrite stockPromise_run, Hentry. }
  exists entries. split.
  { eapply Forall2_impl; [exact Hentries|]. intros company entry H.
    by rewrite (H []). }
  unfold handler. rewrite Hget, Hkey. cbn [String.eqb Ascii.eqb Bool.eqb negb].
  unfold try_catch, bind. rewrite Hrun. unfold await_all.
  destruct (Promise_all schedule entries) as [values|] eqn:Hall; [|done].
  apply Promise_all_ordered in Hall as ->.
  destruct (length _ =? 0)%nat; done.
Qed.

Lemma entries_tickers net apiKey companies entries :
  Forall2 (λ company entry,
             (stockPromise net apiKey company []).1 = Return entry)
    companies entries →
  map result_ticker entries = map ticker companies.
Proof.
  induction 1 as [|company entry companies entries H _ IH]; [done|].
  cbn. apply stockPromise_entry in H as (-> & _). by rewrite IH.
Qed.

Lemma entries_flags net apiKey companies entries :
  Forall2 (λ company entry,
             (stockPromise net apiKey company []).1 = Return entry)
    companies entries →
  Forall2 (λ company entry,
             result_ticker entry = ticker company ∧
             success entry = negb (failed net apiKey company))
    companies entries.
Proof.
  intros H. eapply Forall2_impl; [exact H|]. intros company entry He.
  apply stockPromise_entry in He as (? & _ & ?). done.
Qed.

(** Successes and failures add up to the number of companies. *)
Lemma count_flags net apiKey companies entries :
  Forall2 (λ company entry,
             result_ticker entry = ticker company ∧
             success entry = negb (failed net apiKey company))
    companies entries →
  let failures := filter (λ company, failed net apiKey company = true) companies in
  (length (filter (λ stock, success stock = true) entries)
     + length failures = length companies)%nat ∧
  length (filter (λ stock, success stock = false) entries) = length failures.
Proof.
  induction 1 as [|company entry companies entries [_ H] _ IH]; [done|].
  cbn zeta in *. destruct IH as [IH1 IH2].
  rewrite !filter_cons. rewrite H.
  destruct (failed net apiKey company); cbn [negb];
    repeat case_decide; try done; cbn [length]; lia.
Qed.

(** C2. Whenever the price handler answers a GET request with HTTP 200, the
    [stocks] array has exactly five entries and their tickers are AAPL, MSFT,
    GOOGL, META, AMZN in this order, whatever the upstream answers and in
    whatever order the five fetches complete; and the handler does answer
    once all five fetches have completed. *)
Theorem stocks_keep_company_order env net now schedule req :
  Http.method req = "GET" →
  (all_settle schedule →
   ∃ resp calls, handler env net now schedule req [] = (Return resp, calls)) ∧
  (∀ resp calls,
     handler env net now schedule req [] = (Return resp, calls) →
     Http.statusCode resp = 200 →
     ∃ timestamp successes stocks,
       Http.content resp = Http.Json (Prices timestamp 5 successes stocks) ∧
       length stocks = 5%nat ∧
       map result_ticker stocks = ["AAPL"; "MSFT"; "GOOGL"; "META"; "AMZN"]).
Proof.
  intros Hget.
  destruct (Http.configured (Http.API_KEY env)) as [apiKey|] eqn:Hkey.
  - destruct (handler_GET env net now schedule req apiKey Hget Hkey)
      as (entries & Hentries & ->).
    pose proof (entries_tickers _ _ _ _ Hentries) as Htickers.
    pose proof (Forall2_length _ _ _ Hentries) as Hlen. cbn in Hlen.
    split.
    + intros Hperm. rewrite Promise_all_permutation.
      * cbn zeta. destruct (length _ =? 0)%nat; eauto.
      * by rewrite <- Hlen.
    + intros resp calls H Hstatus.
      destruct (Promise_all schedule entries); [|done]. cbn zeta in H.
      destruct (length _ =? 0)%nat; injection H as <- <-; [done|].
      cbn. rewrite <- Hlen. eauto 10.
  - unfold handler. rewrite Hget, Hkey. cbn. split; [eauto|].
    intros resp calls [= <- <-]. done.
Qed.

(** C3. On a GET request under a configured key, once the five fetches have
    completed: the handler answers 503 exactly when all five fetches failed;
    and when k of them failed with 1 <= k < 5 it answers 200 with
    [successfulFetches] = 5 - k, the entries of the failed companies, and
    only those, carrying [success: false]. *)
Theorem partial_failure_is_isolated env net now schedule req apiKey :
  Http.method req = "GET" →
  Http.configured (Http.API_KEY env) = Some apiKey →
  all_settle schedule →
  let k := length (filter (λ company, failed net apiKey company = true)
                     COMPETITORS) in
  ∃ resp calls,
    handler env net now schedule req [] = (Return resp, calls) ∧
    (Http.statusCode resp = 503 ↔ k = 5%nat) ∧
    ((1 ≤ k < 5)%nat →
     ∃ stocks,
       resp = Http.json Http.cors 200 (Prices now 5 (5 - k) stocks) ∧
       Forall2 (λ company entry,
                  result_ticker entry = ticker company ∧
                  success entry = negb (failed net apiKey company))
         COMPETITORS stocks ∧
       length (filter (λ stock, success stock = false) stocks) = k).
Proof.
  intros Hget Hkey Hperm k.
  destruct (handler_GET env net now schedule req apiKey Hget Hkey)
    as (entries & Hentries & ->).
  pose proof (Forall2_length _ _ _ Hentries) as Hlen.
  apply entries_flags in Hentries as Hflags.
  destruct (count_flags _ _ _ _ Hflags) as [Hsum Hfalse].
  fold k in Hsum, Hfalse. clearbody k.
  change (length COMPETITORS) with 5%nat in Hlen, Hsum.
  rewrite Promise_all_permutation by (by rewrite <- Hlen).
  cbn zeta.
  destruct (length (filter _ entries) =? 0)%nat eqn:Hzero.
  - apply Nat.eqb_eq in Hzero.
    eexists _, _. split; [done|]. cbn. split; [split; [lia|done]|lia].
  - apply Nat.eqb_neq in Hzero.
    eexists _, _. split; [done|]. cbn. split; [split; [done|lia]|].
    intros Hk. exists entries. rewrite <- Hlen.
    replace (5 - k)%nat with (length (filter (λ stock, success stock = true) entries))
      by lia.
    done.
Qed.

(** Every exception of a fetch has a message: the two thrown by
    [fetchStockPrice] itself start with a fixed text. *)
Lemma outcome_Throw net apiKey company e :
  runtime_messages net →
  outcome net apiKey company = Throw e →
  message e ≠ EmptyString.
Proof.
  intros Hrt. specialize (Hrt (stockprice_request (ticker company) apiKey)).
  unfold outcome. run_io.
  destruct (net _) as [r|e']; [|by intros [= <-]].
  destruct (ok r); cbn; [|by intros [= <-]].
  destruct (body r) as [data|e']; [|by intros [= <-]].
  destruct (truthy data); cbn; [|by intros [= <-]].
  destruct (prop data "price"); cbn; [done|by intros [= <-]].
Qed.

(** C4, as the specification words it, fails: a 200 answer whose [price] is
    [null] yields an entry with [success: true] and the price [null]. *)
Lemma success_without_number :
  ∃ entry,
    stockPromise Scenario.null_price "secret" Scenario.AAPL [] =
      (Return entry,
       [stockprice_request "AAPL" "secret"]) ∧
    success entry = true ∧ price entry = Some JNull ∧ ¬ spec_invariant entry.
Proof.
  eexists. split; [reflexivity|]. cbn. split; [done|]. split; [done|].
  intros [H _]. destruct (H eq_refl) as [(v & [= <-] & Hv) _]. done.
Qed.

(** C4, amended.  The task of a company always settles with an entry.  With
    [success: true] the price is the [price] property of the upstream
    payload, present but of any JSON type, and there is no error; with
    [success: false] the price is [null] and the error is the message of the
    caught exception, non-empty as long as the runtime's own rejections
    carry a message. *)
Theorem entry_invariant net apiKey company :
  runtime_messages net →
  ∃ entry,
    (stockPromise net apiKey company []).1 = Return entry ∧
    (success entry = true →
     (∃ data v, outcome net apiKey company = Return data ∧
                prop data "price" = Some v ∧ price entry = Some v) ∧
     error entry = None) ∧
    (success entry = false →
     price entry = Some JNull ∧
     ∃ msg, error entry = Some msg ∧ msg ≠ EmptyString ∧
            ∃ e, outcome net apiKey company = Throw e ∧ msg = message e).
Proof.
  intros Hrt. rewrite stockPromise_value.
  destruct (outcome net apiKey company) as [data|e|] eqn:Hout.
  - destruct (fetchStockPrice_Return _ _ _ _ Hout) as (_ & v & _ & _ & _ & _ & Hv).
    eexists. split; [done|]. cbn. split; [|done].
    intros _. split; [|done]. by exists data, v.
  - eexists. split; [done|]. cbn. split; [done|]. intros _. split; [done|].
    exists (message e). split; [done|].
    split; [by eapply outcome_Throw|]. by exists e.
  - by apply fetchStockPrice_settles in Hout.
Qed.

Lemma entry_invariant_witness :
  ∃ entry,
    (stockPromise Scenario.only_MSFT "secret" Scenario.AAPL []).1 = Return entry ∧
    (success entry = true →
     (∃ data v, outcome Scenario.only_MSFT "secret" Scenario.AAPL = Return data ∧
                prop data "price" = Some v ∧ price entry = Some v) ∧
     error entry = None) ∧
    (success entry = false →
     price entry = Some JNull ∧
     ∃ msg, error entry = Some msg ∧ msg ≠ EmptyString ∧
            ∃ e, outcome Scenario.only_MSFT "secret" Scenario.AAPL = Throw e ∧
                 msg = message e).
Proof.
  apply (entry_invariant Scenario.only_MSFT "secret" Scenario.AAPL).
  intros rq. unfold Scenario.only_MSFT.
  destruct (String.eqb _ _); cbn; [exact I|discriminate].
Defined.

(** C8, as the specification words it, fails: an upstream payload with
    [exchange] set to the empty string is a successful fetch, and the entry
    has no [exchange] key. *)
Lemma exchange_not_echoed :
  ∃ data entry,
    outcome Scenario.empty_exchange "secret" Scenario.AAPL = Return data ∧
    prop data "exchange" = Some (JStr EmptyString) ∧
    (stockPromise Scenario.empty_exchange "secret" Scenario.AAPL []).1 =
      Return entry ∧
    success entry = true ∧ exchange entry = None.
Proof. eexists _, _. repeat split; reflexivity. Qed.

(** C8, amended.  A successful fetch yields an entry with [success: true];
    the entry carries the [exchange] of the upstream payload when that value
    is truthy, and no [exchange] key when the payload has none or has a falsy
    one (empty string, zero, [false], [null]). *)
Theorem exchange_echoed_when_truthy net apiKey company data :
  outcome net apiKey company = Return data →
  ∃ entry,
    (stockPromise net apiKey company []).1 = Return entry ∧
    success entry = true ∧
    exchange entry =
      match prop data "exchange" with
      | Some v => if truthy v then Some v else None
      | None => None
      end.
Proof.
  intros Hout. rewrite stockPromise_value, Hout.
  eexists. split; [done|]. cbn. split; [done|].
  destruct (prop data "exchange"); done.
Qed.

Lemma exchange_echoed_when_truthy_witness :
  ∃ entry,
    (stockPromise Scenario.only_MSFT "secret"
       {| ticker := "MSFT"; name := "Microsoft Corporation" |} []).1 =
      Return entry ∧
    success entry = true ∧
    exchange entry = Some (JStr "NASDAQ").
Proof.
  exact (exchange_echoed_when_truthy Scenario.only_MSFT "secret"
           {| ticker := "MSFT"; name := "Microsoft Corporation" |}
           (JObj [("price", JNum (Finite (Qmake 415 1)));
                  ("exchange", JStr "NASDAQ")])
           eq_refl).
Defined.

Lemma stocks_keep_company_order_witness :
  ∃ resp calls,
    handler Scenario.env Scenario.only_MSFT "2024-05-01T12:00:00.000Z"
      [4; 2; 0; 1; 3]%nat (Scenario.with_method "GET") [] = (Return resp, calls) ∧
    Http.statusCode resp = 200 ∧
    ∃ timestamp successes stocks,
      Http.content resp = Http.Json (Prices timestamp 5 successes stocks) ∧
      length stocks = 5%nat ∧
      map result_ticker stocks = ["AAPL"; "MSFT"; "GOOGL"; "META"; "AMZN"].
Proof.
  destruct (stocks_keep_company_order Scenario.env Scenario.only_MSFT
              "2024-05-01T12:00:00.000Z" [4; 2; 0; 1; 3]%nat
              (Scenario.with_method "GET") eq_refl) as [Hanswers Hordered].
  destruct Hanswers as (resp & calls & Hrun).
  { unfold all_settle. apply (bool_decide_unpack _). vm_compute. reflexivity. }
  exists resp, calls. split; [exact Hrun|].
  assert (Http.statusCode resp = 200) as Hstatus.
  { vm_compute in Hrun. injection Hrun as <- _. reflexivity. }
  split; [exact Hstatus|]. exact (Hordered resp calls Hrun Hstatus).
Defined.

Lemma partial_failure_is_isolated_witness :
  ∃ resp calls,
    handler Scenario.env Scenario.only_MSFT "2024-05-01T12:00:00.000Z"
      [4; 2; 0; 1; 3]%nat (Scenario.with_method "GET") [] = (Return resp, calls) ∧
    (Http.statusCode resp = 503 ↔ 4%nat = 5%nat) ∧
    ((1 ≤ 4 < 5)%nat →
     ∃ stocks,
       resp = Http.json Http.cors 200
                (Prices "2024-05-01T12:00:00.000Z" 5 1 stocks) ∧
       Forall2 (λ company entry,
                  result_ticker entry = ticker company ∧
                  success entry = negb (failed Scenario.only_MSFT "secret" company))
         COMPETITORS stocks ∧
       length (filter (λ stock, success stock = false) stocks) = 4%nat).
Proof.
  refine (partial_failure_is_isolated Scenario.env Scenario.only_MSFT
            "2024-05-01T12:00:00.000Z" [4; 2; 0; 1; 3]%nat
            (Scenario.with_method "GET") "secret" eq_refl eq_refl _).
  unfold all_settle. apply (bool_decide_unpack _). vm_compute. reflexivity.
Defined.

End StocksFacts.

(** ** The transcript handler *)

Module TranscriptFacts.
Import JS Transcript StringFacts.

(** The text around the ticker never contains "not found": checked for each
    of the 31 years and 4 quarters that pass validation. *)
Lemma tail_lacks_not_found year quarter :
  in_range year 2000 2030 → in_range quarter 1 4 →
  includes "not found"
    (" " +:+ decimal year +:+ " Q" +:+ decimal quarter
     +:+ ". The earnings call may not be available yet or the parameters may be incorrect.")
  = false.
Proof.
  intros [Hy1 Hy2] [Hq1 Hq2].
  assert (forallb (λ i, forallb (λ j,
            negb (includes "not found"
                    (" " +:+ decimal (2000 + Z.of_nat i) +:+ " Q"
                     +:+ decimal (1 + Z.of_nat j)
                     +:+ ". The earnings call may not be available yet or the parameters may be incorrect.")))
            (seq 0 4)) (seq 0 31) = true) as Hall by (vm_compute; reflexivity).
  rewrite forallb_forall in Hall.
  assert (In (Z.to_nat (year - 2000)) (seq 0 31)) as Hi by (apply in_seq; lia).
  assert (In (Z.to_nat (quarter - 1)) (seq 0 4)) as Hj by (apply in_seq; lia).
  apply Hall in Hi. rewrite forallb_forall in Hi. apply Hi in Hj.
  rewrite !Z2Nat.id in Hj by lia.
  replace (2000 + (year - 2000)) with year in Hj by lia.
  replace (1 + (quarter - 1)) with quarter in Hj by lia.
  by apply negb_true_iff.
Qed.

(** The message of an upstream 404 does not contain the text the handler
    looks for: it reads "No transcript found", not "not found". *)
Lemma message_lacks_not_found ticker year quarter :
  all_chars is_upper ticker = true →
  in_range year 2000 2030 → in_range quarter 1 4 →
  includes "not found"
    (no_transcript_found ticker (decimal year) (decimal quarter)) = false.
Proof.
  intros Hticker Hyear Hquarter. unfold no_transcript_found.
  rewrite !append_cons, !append_nil.
  cbn [includes startsWith Ascii.eqb Bool.eqb andb orb].
  rewrite includes_skip_upper by done.
  by apply tail_lacks_not_found.
Qed.

Ltac run_fetch :=
  unfold fetchEarningsTranscript, try_catch, bind, fetch, json_of, throw, ret;
  cbn beta.

Section OneFetch.
Variables (net : network) (ticker year quarter apiKey : string).

(** The fetch issues one request, whatever was issued before, and then
    returns or throws. *)
Lemma fetchEarningsTranscript_run calls :
  fetchEarningsTranscript net ticker year quarter apiKey calls =
    ((fetchEarningsTranscript net ticker year quarter apiKey []).1,
     (calls ++ [transcript_request ticker year quarter apiKey])%list).
Proof.
  run_fetch. destruct (net _) as [r|e]; [|done].
  destruct (ok r).
  - cbn. destruct (body r) as [data|e]; [|done].
    destruct (negb (truthy data) || negb (truthy_opt (prop data "transcript")));
      done.
  - cbn. destruct (status r =? 404); done.
Qed.

Lemma fetchEarningsTranscript_settles :
  (fetchEarningsTranscript net ticker year quarter apiKey []).1 ≠ Pending.
Proof.
  run_fetch. destruct (net _) as [r|e]; [|done].
  destruct (ok r).
  - cbn. destruct (body r) as [data|e]; [|done].
    destruct (negb (truthy data) || negb (truthy_opt (prop data "transcript")));
      done.
  - cbn. destruct (status r =? 404); done.
Qed.

(** An upstream 404 becomes the exception "No transcript found for ...". *)
Lemma fetchEarningsTranscript_404 r :
  net (transcript_request ticker year quarter apiKey) = Answered r →
  status r = 404 →
  (fetchEarningsTranscript net ticker year quarter apiKey []).1 =
    Throw (new_Error (no_transcript_found ticker year quarter)).
Proof.
  intros Hnet Hstatus. run_fetch. rewrite Hnet.
  unfold ok. rewrite Hstatus. reflexivity.
Qed.

End OneFetch.

Lemma parsed_is_truthy v n :
  parseInt_query v = Some n → Http.truthy v = true.
Proof. destruct v as [|[|c s]|l]; done. Qed.

Lemma pattern_is_truthy t :
  ticker_pattern (normalised t) = true → Http.truthy (Http.Single t) = true.
Proof. destruct t; done. Qed.

Lemma in_range_test n lo hi :
  in_range n lo hi → out_of_range (Some n) lo hi = false.
Proof.
  intros [Hlo Hhi]. unfold out_of_range.
  apply orb_false_iff. split; apply Z.ltb_ge; done.
Qed.

(** A GET request under a configured key with the three parameters
    present: the three format checks in turn, then one request for the
    normalised ticker and the parsed numbers, and the reply is built from
    how the fetch ends. *)
Lemma handler_checked env net now req apiKey t :
  Http.method req = "GET" →
  Http.configured (Http.API_KEY env) = Some apiKey →
  Http.query req "ticker" = Http.Single t →
  t ≠ EmptyString →
  Http.truthy (Http.query req "year") = true →
  Http.truthy (Http.query req "quarter") = true →
  handler env net now req [] =
    let yearNum := parseInt_query (Http.query req "year") in
    let quarterNum := parseInt_query (Http.query req "quarter") in
    if negb (ticker_pattern (normalised t)) then
      (Return (Http.json Http.cors 400
                 (Failure "Invalid parameter" "Ticker must be 1-5 letters" None)),
       [])
    else if out_of_range yearNum 2000 2030 then
      (Return (Http.json Http.cors 400
                 (Failure "Invalid parameter"
                    "Year must be between 2000 and 2030" None)),
       [])
    else if out_of_range quarterNum 1 4 then
      (Return (Http.json Http.cors 400
                 (Failure "Invalid parameter"
                    "Quarter must be between 1 and 4" None)),
       [])
    else
      (match (fetchEarningsTranscript net (normalised t) (toString yearNum)
                (toString quarterNum) apiKey []).1 with
       | Return transcriptData =>
           Return (Http.json Http.cors 200
                     (Transcript
                        (define "fetchedAt" (JStr now) (spread transcriptData))))
       | Throw error =>
           Return (Http.json Http.cors
                     (if includes "not found" (message error) then 404 else 500)
                     (Failure
                        (if includes "not found" (message error) then "Not found"
                         else "Internal server error")
                        (message error)
                        (if Http.development env then Some (stack error)
                         else None)))
       | Pending => Pending
       end,
       [transcript_request (normalised t) (toString yearNum)
          (toString quarterNum) apiKey]).
Proof.
  intros Hget Hkey Hticker Ht Hyear Hquarter.
  unfold handler. rewrite Hget, Hkey. cbn [String.eqb Ascii.eqb Bool.eqb negb].
  rewrite Hticker, Hyear, Hquarter.
  assert (Http.truthy (Http.Single t) = true) as -> by (by destruct t).
  cbn [negb upper_trim].
  unfold try_catch, bind at 1, ret at 1. fold (normalised t). cbn zeta.
  destruct (ticker_pattern (normalised t)); cbn [negb]; [|done].
  destruct (out_of_range _ 2000 2030); [done|].
  destruct (out_of_range _ 1 4); [done|].
  unfold bind. rewrite fetchEarningsTranscript_run. cbn [fst app].
  destruct (fetchEarningsTranscript _ _ _ _ _ []).1 as [data|e|]; [done| |done].
  unfold ret. destruct (includes "not found" (message e)); done.
Qed.

(** The same when the three parameters pass validation. *)
Lemma handler_validated env net now req apiKey t year quarter :
  Http.method req = "GET" →
  Http.configured (Http.API_KEY env) = Some apiKey →
  Http.query req "ticker" = Http.Single t →
  ticker_pattern (normalised t) = true →
  parseInt_query (Http.query req "year") = Some year →
  in_range year 2000 2030 →
  parseInt_query (Http.query req "quarter") = Some quarter →
  in_range quarter 1 4 →
  handler env net now req [] =
    (match (fetchEarningsTranscript net (normalised t) (decimal year)
              (decimal quarter) apiKey []).1 with
     | Return transcriptData =>
         Return (Http.json Http.cors 200
                   (Transcript
                      (define "fetchedAt" (JStr now) (spread transcriptData))))
     | Throw error =>
         Return (Http.json Http.cors
                   (if includes "not found" (message error) then 404 else 500)
                   (Failure
                      (if includes "not found" (message error) then "Not found"
                       else "Internal server error")
                      (message error)
                      (if Http.development env then Some (stack error) else None)))
     | Pending => Pending
     end,
     [transcript_request (normalised t) (decimal year) (decimal quarter) apiKey]).
Proof.
  intros Hget Hkey Hticker Hpattern Hyear Hy Hquarter Hq.
  rewrite (handler_checked env net now req apiKey t Hget Hkey Hticker).
  - cbn zeta. rewrite Hpattern, Hyear, Hquarter.
    rewrite (in_range_test _ _ _ Hy), (in_range_test _ _ _ Hq). done.
  - intros ->. done.
  - by eapply parsed_is_truthy.
  - by eapply parsed_is_truthy.
Qed.

(** C1.  The handler does not do what the claim says.  For every GET request
    under a configured key whose ticker, year and quarter pass validation,
    an upstream answer with status 404 makes [fetchEarningsTranscript] throw
    "No transcript found for ...", a text that does not contain "not found";
    the handler therefore answers HTTP 500 with kind "Internal server error",
    never 404. *)
Theorem upstream_404_is_answered_with_500
    env net now req apiKey t year quarter r :
  Http.method req = "GET" →
  Http.configured (Http.API_KEY env) = Some apiKey →
  Http.query req "ticker" = Http.Single t →
  ticker_pattern (normalised t) = true →
  parseInt_query (Http.query req "year") = Some year →
  in_range year 2000 2030 →
  parseInt_query (Http.query req "quarter") = Some quarter →
  in_range quarter 1 4 →
  net (transcript_request (normalised t) (decimal year) (decimal quarter) apiKey)
    = Answered r →
  status r = 404 →
  ∃ details,
    handler env net now req [] =
      (Return (Http.json Http.cors 500
                 (Failure "Internal server error"
                    (no_transcript_found (normalised t) (decimal year)
                       (decimal quarter))
                    details)),
       [transcript_request (normalised t) (decimal year) (decimal quarter)
          apiKey]).
Proof.
  intros Hget Hkey Hticker Hpattern Hyear Hy Hquarter Hq Hnet Hstatus.
  rewrite (handler_validated env net now req apiKey t year quarter) by done.
  rewrite (fetchEarningsTranscript_404 _ _ _ _ _ r Hnet Hstatus).
  cbn [message new_Error]. rewrite message_lacks_not_found; [eauto| |done..].
  unfold ticker_pattern in Hpattern.
  by apply andb_true_iff in Hpattern as [[? _]%andb_true_iff _].
Qed.

Lemma upstream_404_is_answered_with_500_witness :
  handler Scenario.env Scenario.not_found "2024-05-01T12:00:00.000Z"
    (Scenario.get (Http.Single "MSFT") (Http.Single "2024") (Http.Single "1")) []
  = (Return (Http.json Http.cors 500
               (Failure "Internal server error"
                  "No transcript found for MSFT 2024 Q1. The earnings call may not be available yet or the parameters may be incorrect."
                  None)),
     [transcript_request "MSFT" "2024" "1" "secret"]).
Proof.
  destruct (upstream_404_is_answered_with_500 Scenario.env Scenario.not_found
              "2024-05-01T12:00:00.000Z"
              (Scenario.get (Http.Single "MSFT") (Http.Single "2024")
                 (Http.Single "1"))
              "secret" "MSFT" 2024 1
              {| status := 404; statusText := "Not Found";
                 body := Parsed (JObj [("error", JStr "Not Found")]) |}
              eq_refl eq_refl eq_refl eq_refl eq_refl
              ltac:(unfold in_range; lia) eq_refl
              ltac:(unfold in_range; lia) eq_refl eq_refl)
    as [details Hrun].
  rewrite Hrun. vm_compute in Hrun. injection Hrun as <-. reflexivity.
Defined.

(** C6.  On a GET request under a configured key the three parameters are
    looked for in the order ticker, year, quarter; the first one that is
    missing (or empty) is answered with HTTP 400, kind "Missing parameter",
    and a message that names it: "Ticker", then "Year", then "Quarter".  No
    request goes out. *)
Theorem missing_parameter_is_named env net now req apiKey :
  Http.method req = "GET" →
  Http.configured (Http.API_KEY env) = Some apiKey →
  let missing name := Http.truthy (Http.query req name) = false in
  let rejected message :=
    handler env net now req [] =
      (Return (Http.json Http.cors 400 (Failure "Missing parameter" message None)),
       []) in
  (missing "ticker" →
   rejected "Ticker symbol is required") ∧
  (¬ missing "ticker" → missing "year" →
   rejected "Year is required") ∧
  (¬ missing "ticker" → ¬ missing "year" → missing "quarter" →
   rejected "Quarter is required") ∧
  includes "Ticker" "Ticker symbol is required" = true ∧
  includes "Year" "Year is required" = true ∧
  includes "Quarter" "Quarter is required" = true.
Proof.
  intros Hget Hkey missing rejected. subst missing rejected. cbn beta.
  unfold handler. rewrite Hget, Hkey. cbn [String.eqb Ascii.eqb Bool.eqb negb].
  repeat split.
  - intros ->. done.
  - intros Hticker%not_false_is_true ->. rewrite Hticker. done.
  - intros Hticker%not_false_is_true Hyear%not_false_is_true ->.
    rewrite Hticker, Hyear. done.
Qed.

Lemma missing_parameter_is_named_witness :
  handler Scenario.env Scenario.not_found "2024-05-01T12:00:00.000Z"
    (Scenario.get (Http.Single "MSFT") Http.Absent (Http.Single "1")) []
  = (Return (Http.json Http.cors 400
               (Failure "Missing parameter" "Year is required" None)),
     []).
Proof.
  refine (proj1 (proj2 (missing_parameter_is_named Scenario.env
                          Scenario.not_found "2024-05-01T12:00:00.000Z"
                          (Scenario.get (Http.Single "MSFT") Http.Absent
                             (Http.Single "1"))
                          "secret" eq_refl eq_refl)) _ eq_refl).
  discriminate.
Defined.

(** The pattern [/^[A-Z]{1,5}$/]: one to five characters, each of them
    between "A" and "Z". *)
Lemma ticker_pattern_spec s :
  ticker_pattern s = true ↔
  (1 ≤ String.length s ≤ 5)%nat ∧
  Forall (λ c, (65 ≤ nat_of_ascii c ≤ 90)%nat) (list_ascii_of_string s).
Proof.
  unfold ticker_pattern. rewrite !andb_true_iff, !Nat.leb_le.
  assert (all_chars is_upper s = true ↔
          Forall (λ c, (65 ≤ nat_of_ascii c ≤ 90)%nat) (list_ascii_of_string s))
    as ->.
  { induction s as [|c s IH]; cbn [all_chars list_ascii_of_string].
    - split; [constructor|done].
    - rewrite andb_true_iff, Forall_cons, IH. unfold is_upper, between, code.
      rewrite andb_true_iff, !Nat.leb_le. done. }
  tauto.
Qed.

(** C7.  On a GET request under a configured key with the three parameters
    present, the ticker is put in upper case and trimmed, and the result is
    tested against one to five upper-case letters.  When it fails the test
    the answer is the HTTP 400 about the ticker and no request goes out.
    When it passes, the answer is not that rejection: a year or quarter out
    of range is answered with another 400 and nothing goes out, and with both
    in range exactly one request goes out, for the normalised ticker and the
    two parsed numbers, and the answer is no 400.  "msft " passes as "MSFT";
    "12AB" and "TOOLONG1" fail. *)
Theorem ticker_is_normalised_then_matched env net now req apiKey t :
  Http.method req = "GET" →
  Http.configured (Http.API_KEY env) = Some apiKey →
  Http.query req "ticker" = Http.Single t →
  t ≠ EmptyString →
  Http.truthy (Http.query req "year") = true →
  Http.truthy (Http.query req "quarter") = true →
  let rejection :=
    Http.json Http.cors 400
      (Failure "Invalid parameter" "Ticker must be 1-5 letters" None) in
  let yearNum := parseInt_query (Http.query req "year") in
  let quarterNum := parseInt_query (Http.query req "quarter") in
  (ticker_pattern (normalised t) = false →
   handler env net now req [] = (Return rejection, [])) ∧
  (ticker_pattern (normalised t) = true →
   ∃ resp calls,
     handler env net now req [] = (Return resp, calls) ∧
     resp ≠ rejection ∧
     (out_of_range yearNum 2000 2030 = true ∨
      out_of_range quarterNum 1 4 = true →
      Http.statusCode resp = 400 ∧ calls = []) ∧
     (∀ year quarter,
        yearNum = Some year → in_range year 2000 2030 →
        quarterNum = Some quarter → in_range quarter 1 4 →
        Http.statusCode resp ≠ 400 ∧
        calls = [transcript_request (normalised t) (decimal year)
                   (decimal quarter) apiKey])) ∧
  (ticker_pattern (normalised t) = true ↔
   (1 ≤ String.length (normalised t) ≤ 5)%nat ∧
   Forall (λ c, (65 ≤ nat_of_ascii c ≤ 90)%nat)
     (list_ascii_of_string (normalised t))) ∧
  normalised "msft " = "MSFT" ∧
  ticker_pattern (normalised "msft ") = true ∧
  ticker_pattern (normalised "12AB") = false ∧
  ticker_pattern (normalised "TOOLONG1") = false.
Proof.
  intros Hget Hkey Hticker Ht Hyear Hquarter rejection yearNum quarterNum.
  rewrite (handler_checked env net now req apiKey t) by done. cbn zeta.
  fold yearNum quarterNum.
  split; [by intros ->|]. split; [|split; [apply ticker_pattern_spec|done]].
  intros ->. cbn [negb].
  destruct (out_of_range yearNum 2000 2030) eqn:Hy.
  { eexists _, _. split; [done|]. split; [done|]. split; [done|].
    intros year quarter Hsome Hin _ _. rewrite Hsome in Hy.
    by rewrite (in_range_test _ _ _ Hin) in Hy. }
  destruct (out_of_range quarterNum 1 4) eqn:Hq.
  { eexists _, _. split; [done|]. split; [done|]. split; [done|].
    intros year quarter _ _ Hsome Hin. rewrite Hsome in Hq.
    by rewrite (in_range_test _ _ _ Hin) in Hq. }
  pose proof (fetchEarningsTranscript_settles net (normalised t)
                (toString yearNum) (toString quarterNum) apiKey) as Hsettles.
  destruct (fetchEarningsTranscript _ _ _ _ _ []).1 as [data|e|]; [| |done].
  - eexists _, _. split; [done|]. split; [done|].
    split; [by intros [?|?]|].
    intros year quarter -> _ -> _. done.
  - eexists _, _. split; [done|].
    split; [destruct (includes "not found" (message e)); done|].
    split; [by intros [?|?]|].
    intros year quarter -> _ -> _. cbn.
    destruct (includes "not found" (message e)); done.
Qed.

Lemma ticker_is_normalised_then_matched_witness :
  ∃ resp,
    handler Scenario.env Scenario.not_found "2024-05-01T12:00:00.000Z"
      (Scenario.get (Http.Single "msft ") (Http.Single "2024") (Http.Single "1"))
      [] = (Return resp, [transcript_request "MSFT" "2024" "1" "secret"]) ∧
    resp ≠ Http.json Http.cors 400
             (Failure "Invalid parameter" "Ticker must be 1-5 letters" None) ∧
    Http.statusCode resp ≠ 400.
Proof.
  destruct (proj1 (proj2 (ticker_is_normalised_then_matched Scenario.env
                            Scenario.not_found "2024-05-01T12:00:00.000Z"
                            (Scenario.get (Http.Single "msft ")
                               (Http.Single "2024") (Http.Single "1"))
                            "secret" "msft " eq_refl eq_refl eq_refl
                            ltac:(discriminate) eq_refl eq_refl)) eq_refl)
    as (resp & calls & Hrun & Hne & _ & Hsent).
  destruct (Hsent 2024 1 eq_refl ltac:(unfold in_range; lia)
              eq_refl ltac:(unfold in_range; lia)) as [Hstatus Hcalls].
  exists resp. rewrite Hrun, Hcalls. done.
Defined.

(** C9.  Year and quarter are read with [parseInt]: a year whose leading
    run of digits denotes a number from 2000 to 2030, and a quarter whose
    leading run of digits denotes a number from 1 to 4, pass validation
    whatever follows the digits, and the request that goes out carries the
    two numbers in decimal, not the raw strings. *)
Theorem integer_prefix_is_what_counts
    env net now req apiKey t ydigits yrest qdigits qrest :
  Http.method req = "GET" →
  Http.configured (Http.API_KEY env) = Some apiKey →
  Http.query req "ticker" = Http.Single t →
  ticker_pattern (normalised t) = true →
  Http.query req "year" = Http.Single (ydigits +:+ yrest) →
  all_chars is_digit ydigits = true → no_leading_digit yrest = true →
  in_range (numeral_value ydigits) 2000 2030 →
  Http.query req "quarter" = Http.Single (qdigits +:+ qrest) →
  all_chars is_digit qdigits = true → no_leading_digit qrest = true →
  in_range (numeral_value qdigits) 1 4 →
  ∃ resp,
    handler env net now req [] =
      (Return resp,
       [transcript_request (normalised t) (decimal (numeral_value ydigits))
          (decimal (numeral_value qdigits)) apiKey]) ∧
    Http.statusCode resp ≠ 400.
Proof.
  intros Hget Hkey Hticker Hpattern Hyear Hyd Hyr Hy Hquarter Hqd Hqr Hq.
  rewrite (handler_validated env net now req apiKey t
             (numeral_value ydigits) (numeral_value qdigits)); try done.
  - pose proof (fetchEarningsTranscript_settles net (normalised t)
                  (decimal (numeral_value ydigits))
                  (decimal (numeral_value qdigits)) apiKey) as Hsettles.
    destruct (fetchEarningsTranscript _ _ _ _ _ []).1 as [data|e|]; [| |done].
    + eexists. split; [done|]. done.
    + eexists. split; [done|]. cbn.
      destruct (includes "not found" (message e)); done.
  - rewrite Hyear. cbn [parseInt_query].
    apply parseInt_numeral; [done..|]. destruct Hy. lia.
  - rewrite Hquarter. cbn [parseInt_query].
    apply parseInt_numeral; [done..|]. destruct Hq. lia.
Qed.

Lemma integer_prefix_is_what_counts_witness :
  ∃ resp,
    handler Scenario.env Scenario.not_found "2024-05-01T12:00:00.000Z"
      (Scenario.get (Http.Single "MSFT") (Http.Single "2024abc")
         (Http.Single "3.9")) [] =
      (Return resp, [transcript_request "MSFT" "2024" "3" "secret"]) ∧
    Http.statusCode resp ≠ 400.
Proof.
  exact (integer_prefix_is_what_counts Scenario.env Scenario.not_found
           "2024-05-01T12:00:00.000Z"
           (Scenario.get (Http.Single "MSFT") (Http.Single "2024abc")
              (Http.Single "3.9"))
           "secret" "MSFT" "2024" "abc" "3" ".9"
           eq_refl eq_refl eq_refl eq_refl eq_refl eq_refl eq_refl
           ltac:(unfold in_range; vm_compute; split; discriminate)
           eq_refl eq_refl eq_refl
           ltac:(unfold in_range; vm_compute; split; discriminate)).
Defined.

End TranscriptFacts.

(** ** Both handlers: preflight, method, configuration, headers *)

Module BothHandlers.
Import JS.

(** The transcript handler answers every request, and with the three
    headers. *)
Lemma transcript_headers env net now req :
  ∃ resp calls,
    Transcript.handler env net now req [] = (Return resp, calls) ∧
    Http.headers resp = Http.cors.
Proof.
  unfold Transcript.handler.
  destruct (String.eqb (Http.method req) "OPTIONS"); [by eexists _, _|].
  destruct (String.eqb (Http.method req) "GET"); [|by eexists _, _].
  cbn [negb]. unfold try_catch.
  destruct (Http.configured _) as [apiKey|]; [|by eexists _, _].
  destruct (Http.truthy (Http.query req "ticker")); [|by eexists _, _].
  destruct (Http.truthy (Http.query req "year")); [|by eexists _, _].
  destruct (Http.truthy (Http.query req "quarter")); [|by eexists _, _].
  cbn [negb]. unfold bind at 1.
  destruct (Http.query req "ticker") as [|t|l]; cbn [Transcript.upper_trim];
    [by eexists _, _| |by eexists _, _].
  unfold ret at 1.
  destruct (Transcript.ticker_pattern _); [|by eexists _, _].
  destruct (Transcript.out_of_range _ 2000 2030); [by eexists _, _|].
  destruct (Transcript.out_of_range _ 1 4); [by eexists _, _|].
  cbn [negb]. unfold bind.
  rewrite TranscriptFacts.fetchEarningsTranscript_run.
  pose proof (TranscriptFacts.fetchEarningsTranscript_settles net
                (trim (toUpperCase t))
                (toString (Transcript.parseInt_query (Http.query req "year")))
                (toString (Transcript.parseInt_query (Http.query req "quarter")))
                apiKey) as Hsettles.
  destruct (Transcript.fetchEarningsTranscript _ _ _ _ _ []).1; [| |done];
    by eexists _, _.
Qed.

(** Every answer of the price handler has the three headers. *)
Lemma stocks_headers env net now schedule req resp calls :
  Stocks.handler env net now schedule req [] = (Return resp, calls) →
  Http.headers resp = Http.cors.
Proof.
  destruct (String.eqb (Http.method req) "GET") eqn:Hget.
  - apply String.eqb_eq in Hget.
    destruct (Http.configured (Http.API_KEY env)) as [apiKey|] eqn:Hkey.
    + destruct (StocksFacts.handler_GET env net now schedule req apiKey Hget Hkey)
        as (entries & _ & ->).
      destruct (Promise_all schedule entries); [|done]. cbn zeta.
      destruct (length _ =? 0)%nat; by intros [= <- _].
    + unfold Stocks.handler. rewrite Hget, Hkey. by intros [= <- _].
  - unfold Stocks.handler. rewrite Hget.
    destruct (String.eqb (Http.method req) "OPTIONS"); by intros [= <- _].
Qed.

(** C5.  While [API_KEY] is unset or empty, every GET request to either
    handler is answered with HTTP 500 and the server-configuration error, and
    no request has gone out to the upstream. *)
Theorem missing_key_short_circuits env net now schedule req :
  Http.method req = "GET" →
  Http.API_KEY env = None ∨ Http.API_KEY env = Some EmptyString →
  Stocks.handler env net now schedule req [] =
    (Return (Http.json Http.cors 500 Stocks.misconfigured), []) ∧
  Transcript.handler env net now req [] =
    (Return (Http.json Http.cors 500 Transcript.misconfigured), []).
Proof.
  intros Hget Hkey.
  assert (Http.configured (Http.API_KEY env) = None) as Hnone.
  { by destruct Hkey as [-> | ->]. }
  unfold Stocks.handler, Transcript.handler. rewrite Hget, Hnone. done.
Qed.

Lemma missing_key_short_circuits_witness :
  Stocks.handler Scenario.no_key Scenario.only_MSFT "2024-05-01T12:00:00.000Z"
    [0; 1; 2; 3; 4]%nat (Scenario.with_method "GET") [] =
    (Return (Http.json Http.cors 500 Stocks.misconfigured), []) ∧
  Transcript.handler Scenario.no_key Scenario.only_MSFT
    "2024-05-01T12:00:00.000Z" (Scenario.with_method "GET") [] =
    (Return (Http.json Http.cors 500 Transcript.misconfigured), []).
Proof.
  apply (missing_key_short_circuits Scenario.no_key Scenario.only_MSFT
           "2024-05-01T12:00:00.000Z" [0; 1; 2; 3; 4]%nat
           (Scenario.with_method "GET")).
  - reflexivity.
  - left. reflexivity.
Defined.

(** C10.  In both handlers the preflight and the method check come before
    the look at [API_KEY]: whatever the environment, an OPTIONS request is
    answered with HTTP 200 and no body, a request that is neither OPTIONS
    nor GET with HTTP 405, and in both cases nothing goes out to the
    upstream.  Every answer of either handler carries the three CORS
    headers. *)
Theorem preflight_and_method_come_first env net now schedule req :
  (Http.method req = "OPTIONS" →
   Stocks.handler env net now schedule req [] =
     (Return (Http.end_ Http.cors 200), []) ∧
   Transcript.handler env net now req [] =
     (Return (Http.end_ Http.cors 200), [])) ∧
  (Http.method req ≠ "OPTIONS" → Http.method req ≠ "GET" →
   Stocks.handler env net now schedule req [] =
     (Return (Http.json Http.cors 405 Stocks.method_not_allowed), []) ∧
   Transcript.handler env net now req [] =
     (Return (Http.json Http.cors 405 Transcript.method_not_allowed), [])) ∧
  (∀ resp calls,
     Stocks.handler env net now schedule req [] = (Return resp, calls) →
     Http.headers resp =
       [("Access-Control-Allow-Origin", "*");
        ("Access-Control-Allow-Methods", "GET, OPTIONS");
        ("Access-Control-Allow-Headers", "Content-Type")]) ∧
  (∃ resp calls,
     Transcript.handler env net now req [] = (Return resp, calls) ∧
     Http.headers resp =
       [("Access-Control-Allow-Origin", "*");
        ("Access-Control-Allow-Methods", "GET, OPTIONS");
        ("Access-Control-Allow-Headers", "Content-Type")]).
Proof.
  split; [|split; [|split]].
  - intros Hoptions. unfold Stocks.handler, Transcript.handler.
    rewrite Hoptions. done.
  - intros Hoptions%String.eqb_neq Hget%String.eqb_neq.
    unfold Stocks.handler, Transcript.handler. rewrite Hoptions, Hget. done.
  - intros resp calls Hrun. by apply stocks_headers in Hrun.
  - apply transcript_headers.
Qed.

Lemma preflight_and_method_come_first_witness :
  (Stocks.handler Scenario.no_key Scenario.only_MSFT "2024-05-01T12:00:00.000Z"
     [0; 1; 2; 3; 4]%nat (Scenario.with_method "OPTIONS") [] =
     (Return (Http.end_ Http.cors 200), []) ∧
   Transcript.handler Scenario.no_key Scenario.only_MSFT
     "2024-05-01T12:00:00.000Z" (Scenario.with_method "OPTIONS") [] =
     (Return (Http.end_ Http.cors 200), [])) ∧
  (Stocks.handler Scenario.no_key Scenario.only_MSFT "2024-05-01T12:00:00.000Z"
     [0; 1; 2; 3; 4]%nat (Scenario.with_method "POST") [] =
     (Return (Http.json Http.cors 405 Stocks.method_not_allowed), []) ∧
   Transcript.handler Scenario.no_key Scenario.only_MSFT
     "2024-05-01T12:00:00.000Z" (Scenario.with_method "POST") [] =
     (Return (Http.json Http.cors 405 Transcript.method_not_allowed), [])).
Proof.
  split.
  - apply (proj1 (preflight_and_method_come_first Scenario.no_key
                    Scenario.only_MSFT "2024-05-01T12:00:00.000Z"
                    [0; 1; 2; 3; 4]%nat (Scenario.with_method "OPTIONS"))).
    reflexivity.
  - apply (proj1 (proj2 (preflight_and_method_come_first Scenario.no_key
                           Scenario.only_MSFT "2024-05-01T12:00:00.000Z"
                           [0; 1; 2; 3; 4]%nat (Scenario.with_method "POST"))));
      discriminate.
Defined.

End BothHandlers.

(** * Further properties of the two handlers *)

(** ** More on strings and parseInt *)

Module ParseFacts.
Import JS StringFacts.

Lemma trimStart_spaces (ws s : string) :
  all_chars is_space ws = true → trimStart (ws +:+ s) = trimStart s.
Proof.
  induction ws as [|c ws IH]; [done|].
  cbn [all_chars]. intros [Hc Hws]%andb_true_iff.
  rewrite append_cons. cbn [trimStart]. rewrite Hc. by apply IH.
Qed.

Lemma parseInt_spaces (ws s : string) :
  all_chars is_space ws = true → parseInt (ws +:+ s) = parseInt s.
Proof. intros Hws. unfold parseInt. by rewrite trimStart_spaces. Qed.

(** A plus sign in front of a digit is read and dropped. *)
Lemma parseInt_plus c (s : string) :
  is_digit c = true →
  parseInt (String "+" (String c s)) = parseInt (String c s).
Proof.
  intros Hc. unfold parseInt. cbn [trimStart].
  rewrite (digit_is_not_space c Hc).
  change (is_space "+") with false.
  assert (read_sign (String c s) = (1, String c s)) as ->.
  { clear -Hc. each_char c; vm_compute in Hc; try congruence; reflexivity. }
  reflexivity.
Qed.

Lemma digit_value_nonneg radix c d : digit_value radix c = Some d → 0 ≤ d.
Proof.
  unfold digit_value.
  destruct (is_digit c) eqn:Hd;
    [|destruct (is_lower c) eqn:Hl; [|destruct (is_upper c) eqn:Hu; [|done]]].
  - destruct (_ <? radix); [|done]. intros [= <-].
    clear -Hd. each_char c; vm_compute in Hd; try congruence; vm_compute;
      congruence.
  - destruct (_ <? radix); [|done]. intros [= <-].
    clear -Hl. each_char c; vm_compute in Hl; try congruence; vm_compute;
      congruence.
  - destruct (_ <? radix); [|done]. intros [= <-].
    clear -Hu. each_char c; vm_compute in Hu; try congruence; vm_compute;
      congruence.
Qed.

Lemma read_digits_nonneg radix (s : string) acc n :
  0 < radix →
  (∀ a, acc = Some a → 0 ≤ a) →
  read_digits radix acc s = Some n → 0 ≤ n.
Proof.
  intros Hradix. revert acc.
  induction s as [|c s IH]; intros acc Hacc; cbn [read_digits].
  - intros ->. by apply Hacc.
  - destruct (digit_value radix c) as [d|] eqn:Hd.
    + apply IH. intros a [= <-]. apply digit_value_nonneg in Hd.
      destruct acc as [a|]; cbn [default id];
        [specialize (Hacc a eq_refl)|]; nia.
    + intros ->. by apply Hacc.
Qed.

(** What starts with a minus sign, after white space, never parses to a
    positive number. *)
Lemma parseInt_minus (ws s : string) n :
  all_chars is_space ws = true →
  parseInt (ws +:+ String "-" s) = Some n → n ≤ 0.
Proof.
  intros Hws. rewrite parseInt_spaces by done.
  unfold parseInt. cbn [trimStart]. change (is_space "-") with false.
  cbn [read_sign].
  destruct (read_radix s) as [radix s2] eqn:Hr.
  assert (0 < radix) as Hradix.
  { unfold read_radix in Hr. repeat case_match; simplify_eq; lia. }
  destruct (read_digits radix None s2) as [m|] eqn:Hm; [|done].
  intros [= <-]. apply read_digits_nonneg in Hm; [lia|done..].
Qed.

Lemma hex_digit_value c :
  is_hex_digit c = true → digit_value 16 c = Some (hex_digit c).
Proof. each_char c; vm_compute; congruence. Qed.

Lemma hex_digit_other c : is_hex_digit c = false → digit_value 16 c = None.
Proof. each_char c; vm_compute; congruence. Qed.

Lemma read_digits_hex (hs rest : string) (acc : Z) :
  all_chars is_hex_digit hs = true →
  no_leading_hex_digit rest = true →
  read_digits 16 (Some acc) (hs +:+ rest) = Some (hex_numeral acc hs).
Proof.
  intros Hhs Hrest. revert acc Hhs.
  induction hs as [|c hs IH]; intros acc Hhs.
  - rewrite append_nil. destruct rest as [|c rest]; [done|].
    cbn in Hrest. apply negb_true_iff in Hrest.
    cbn [read_digits hex_numeral]. by rewrite (hex_digit_other c Hrest).
  - cbn [all_chars] in Hhs. apply andb_true_iff in Hhs as [Hc Hhs].
    rewrite append_cons. cbn [read_digits hex_numeral].
    rewrite (hex_digit_value c Hc). cbn [default]. by apply IH.
Qed.

(** After [0x] or [0X], [parseInt] reads hexadecimal digits. *)
Lemma parseInt_hex x (hs rest : string) :
  x = "x"%char ∨ x = "X"%char →
  hs ≠ EmptyString →
  all_chars is_hex_digit hs = true →
  no_leading_hex_digit rest = true →
  parseInt (String "0" (String x (hs +:+ rest))) = Some (hex_value hs).
Proof.
  intros Hx Hne Hhs Hrest. unfold parseInt, hex_value.
  cbn [trimStart]. change (is_space "0") with false. cbn [read_sign].
  assert (read_radix (String "0" (String x (hs +:+ rest))) = (16, hs +:+ rest))
    as -> by (by destruct Hx as [-> | ->]).
  destruct hs as [|c hs]; [done|].
  cbn [all_chars] in Hhs. apply andb_true_iff in Hhs as [Hc Hhs].
  rewrite append_cons. cbn [read_digits]. rewrite (hex_digit_value c Hc).
  cbn [default hex_numeral]. rewrite (read_digits_hex hs rest _ Hhs Hrest).
  f_equal. lia.
Qed.

(** A number printed in decimal has no letter "n" in it. *)
Lemma uint_lacks_n (d : Decimal.uint) :
  all_chars (λ c, negb (Ascii.eqb "n" c)) (NilEmpty.string_of_uint d) = true.
Proof. induction d; cbn; done. Qed.

Lemma decimal_lacks_n (n : Z) :
  all_chars (λ c, negb (Ascii.eqb "n" c)) (decimal n) = true.
Proof.
  unfold decimal, NilZero.string_of_int, NilZero.string_of_uint.
  destruct (Z.to_int n) as [d|d].
  - destruct d; try apply (uint_lacks_n (_ _)); done.
  - cbn [all_chars]. destruct d; try apply (uint_lacks_n (_ _)); done.
Qed.

(** No occurrence of "not found" starts inside a text without "n". *)
Lemma includes_skip (text rest : string) :
  all_chars (λ c, negb (Ascii.eqb "n" c)) text = true →
  includes "not found" (text +:+ rest) = includes "not found" rest.
Proof.
  induction text as [|c text IH]; [done|].
  cbn [all_chars]. intros [Hc Hrest]%andb_true_iff.
  rewrite append_cons. cbn [includes startsWith].
  apply negb_true_iff in Hc. rewrite Hc. cbn [andb orb]. by apply IH.
Qed.

End ParseFacts.

(** ** Which tickers pass: white space, one to five letters, white space *)

Module TickerFacts.
Import JS StringFacts Transcript.

Lemma toUpperCase_app (a b : string) :
  toUpperCase (a +:+ b) = toUpperCase a +:+ toUpperCase b.
Proof.
  induction a as [|c a IH]; [done|].
  rewrite append_cons. cbn [toUpperCase]. by rewrite IH, append_cons.
Qed.

Lemma toUpperCase_length (s : string) :
  String.length (toUpperCase s) = String.length s.
Proof. induction s as [|c s IH]; [done|]. cbn. by rewrite IH. Qed.

Lemma upper_char_space c : is_space (upper_char c) = is_space c.
Proof. each_char c; reflexivity. Qed.

Lemma upper_char_letter c : is_upper (upper_char c) = is_letter c.
Proof. each_char c; reflexivity. Qed.

Lemma upper_is_not_space c : is_upper c = true → is_space c = false.
Proof. each_char c; vm_compute; congruence. Qed.

Lemma toUpperCase_spaces (s : string) :
  all_chars is_space (toUpperCase s) = all_chars is_space s.
Proof.
  induction s as [|c s IH]; [done|].
  cbn [toUpperCase all_chars]. by rewrite upper_char_space, IH.
Qed.

Lemma toUpperCase_letters (s : string) :
  all_chars is_upper (toUpperCase s) = all_chars is_letter s.
Proof.
  induction s as [|c s IH]; [done|].
  cbn [toUpperCase all_chars]. by rewrite upper_char_letter, IH.
Qed.

(** Where [toUpperCase] yields two parts, so did its argument. *)
Lemma toUpperCase_split (s a b : string) :
  toUpperCase s = a +:+ b →
  ∃ a' b', s = a' +:+ b' ∧ toUpperCase a' = a ∧ toUpperCase b' = b.
Proof.
  revert s. induction a as [|c a IH]; intros s Hs.
  - exists EmptyString, s. done.
  - destruct s as [|c' s]; [done|].
    rewrite append_cons in Hs. cbn [toUpperCase] in Hs.
    injection Hs as Hc Hs. destruct (IH s Hs) as (a' & b' & -> & <- & <-).
    exists (String c' a'), b'. rewrite append_cons. cbn [toUpperCase].
    by rewrite Hc.
Qed.

(** [trimStart] and [trimEnd] take white space off, and nothing else. *)
Lemma trimStart_split (s : string) :
  ∃ l, s = l +:+ trimStart s ∧ all_chars is_space l = true.
Proof.
  induction s as [|c s (l & Hl & Hspaces)].
  - by exists EmptyString.
  - cbn [trimStart]. destruct (is_space c) eqn:Hc.
    + exists (String c l). rewrite append_cons, <- Hl. cbn [all_chars].
      by rewrite Hc.
    + by exists EmptyString.
Qed.

Lemma trimEnd_split (s : string) :
  ∃ r, s = trimEnd s +:+ r ∧ all_chars is_space r = true.
Proof.
  induction s as [|c s (r & Hr & Hspaces)].
  - by exists EmptyString.
  - cbn [trimEnd]. destruct (trimEnd s) as [|c' s'] eqn:Hs.
    + rewrite append_nil in Hr. subst r.
      destruct (is_space c) eqn:Hc.
      * exists (String c s). rewrite append_nil. cbn [all_chars].
        by rewrite Hc.
      * exists s. by rewrite append_cons, append_nil.
    + exists r. by rewrite append_cons, <- Hr.
Qed.

Lemma trimEnd_spaces (r : string) :
  all_chars is_space r = true → trimEnd r = EmptyString.
Proof.
  induction r as [|c r IH]; [done|].
  cbn [all_chars]. intros [Hc Hr]%andb_true_iff.
  cbn [trimEnd]. by rewrite (IH Hr), Hc.
Qed.

Lemma trimEnd_solid (m r : string) :
  all_chars is_upper m = true →
  all_chars is_space r = true →
  trimEnd (m +:+ r) = m.
Proof.
  intros Hm Hr. induction m as [|c m IH].
  - rewrite append_nil. by apply trimEnd_spaces.
  - cbn [all_chars] in Hm. apply andb_true_iff in Hm as [Hc Hm].
    rewrite append_cons. cbn [trimEnd]. rewrite (IH Hm).
    destruct m; [|done]. by rewrite (upper_is_not_space c Hc).
Qed.

Lemma trimStart_solid (m : string) :
  m ≠ EmptyString → all_chars is_upper m = true → trimStart m = m.
Proof.
  destruct m as [|c m]; [done|]. intros _.
  cbn [all_chars]. intros [Hc _]%andb_true_iff.
  cbn [trimStart]. by rewrite (upper_is_not_space c Hc).
Qed.

End TickerFacts.

(** ** The transcript handler: validation *)

Module TranscriptValidation.
Import JS StringFacts ParseFacts TickerFacts Transcript TranscriptFacts.

(** Under a configured key and with the three parameters present, the
    ticker rejection is the answer exactly when the normalised ticker fails
    the pattern. *)
Lemma ticker_check env net now req apiKey t :
  Http.method req = "GET" →
  Http.configured (Http.API_KEY env) = Some apiKey →
  Http.query req "ticker" = Http.Single t →
  t ≠ EmptyString →
  Http.truthy (Http.query req "year") = true →
  Http.truthy (Http.query req "quarter") = true →
  handler env net now req [] =
    (Return (Http.json Http.cors 400
               (Failure "Invalid parameter" "Ticker must be 1-5 letters" None)),
     []) ↔
  ticker_pattern (normalised t) = false.
Proof.
  intros Hget Hkey Hticker Ht Hyear Hquarter.
  rewrite (handler_checked env net now req apiKey t) by done. cbn zeta.
  destruct (ticker_pattern (normalised t)); cbn [negb]; [|done].
  split; [|done].
  destruct (out_of_range _ 2000 2030); [done|].
  destruct (out_of_range _ 1 4); done.
Qed.

(** X1.  For a ticker given in ASCII, the ticker check lets through exactly
    the strings made of white space, one to five letters of either case, and
    white space; the normalised ticker is then the letters in upper case.
    An ASCII ticker with anything else in it, white space between letters
    included, is answered with the 400 "Ticker must be 1-5 letters" and no
    request goes out.  (Outside ASCII the handler accepts more: upper-casing
    and trimming there are not those of this model.) *)
Theorem ticker_shape env net now req apiKey t :
  Http.method req = "GET" →
  Http.configured (Http.API_KEY env) = Some apiKey →
  Http.query req "ticker" = Http.Single t →
  all_chars is_ascii t = true →
  t ≠ EmptyString →
  Http.truthy (Http.query req "year") = true →
  Http.truthy (Http.query req "quarter") = true →
  let shaped l m r :=
    t = l +:+ m +:+ r ∧
    all_chars is_space l = true ∧ all_chars is_letter m = true ∧
    (1 ≤ String.length m ≤ 5)%nat ∧ all_chars is_space r = true in
  (handler env net now req [] =
     (Return (Http.json Http.cors 400
                (Failure "Invalid parameter" "Ticker must be 1-5 letters" None)),
      []) ↔
   ¬ ∃ l m r, shaped l m r) ∧
  (∀ l m r, shaped l m r → normalised t = toUpperCase m).
Proof.
  intros Hget Hkey Hticker _ Ht Hyear Hquarter shaped.
  assert (∀ l m r, shaped l m r →
            normalised t = toUpperCase m ∧
            ticker_pattern (normalised t) = true) as Hshaped.
  { intros l m r (-> & Hl & Hm & Hlen & Hr).
    assert (normalised (l +:+ m +:+ r) = toUpperCase m) as Hnorm.
    { unfold normalised, trim. rewrite !toUpperCase_app.
      rewrite trimStart_spaces by (by rewrite toUpperCase_spaces).
      assert (trimStart (toUpperCase m +:+ toUpperCase r) =
              toUpperCase m +:+ toUpperCase r) as ->.
      { destruct m as [|c m]; [cbn in Hlen; lia|].
        cbn [toUpperCase]. rewrite append_cons. cbn [trimStart].
        cbn [all_chars] in Hm. apply andb_true_iff in Hm as [Hc _].
        rewrite <- upper_char_letter in Hc.
        by rewrite (upper_is_not_space _ Hc). }
      apply trimEnd_solid; by rewrite ?toUpperCase_letters, ?toUpperCase_spaces. }
    split; [done|]. rewrite Hnorm. unfold ticker_pattern.
    rewrite toUpperCase_letters, Hm, toUpperCase_length. cbn [andb].
    apply andb_true_iff. split; apply Nat.leb_le; lia. }
  split; [|intros l m r H; by apply Hshaped in H as [? _]].
  rewrite (ticker_check env net now req apiKey t) by done. split.
  - intros Hfails (l & m & r & H). apply Hshaped in H as [_ H]. congruence.
  - intros Hnone. apply not_true_is_false. intros Hpattern. apply Hnone.
    destruct (trimStart_split (toUpperCase t)) as (l & Hl & Hlspaces).
    destruct (trimEnd_split (trimStart (toUpperCase t))) as (r & Hr & Hrspaces).
    fold (trim (toUpperCase t)) in Hr. fold (normalised t) in Hr.
    rewrite Hr in Hl.
    apply toUpperCase_split in Hl as (l' & rest & -> & Hl' & Hrest).
    apply toUpperCase_split in Hrest as (m' & r' & -> & Hm' & Hr').
    exists l', m', r'. split; [done|].
    unfold ticker_pattern in Hpattern. rewrite <- Hm' in Hpattern.
    rewrite toUpperCase_letters, toUpperCase_length in Hpattern.
    apply andb_true_iff in Hpattern as [[Hm Hlo]%andb_true_iff Hhi].
    apply Nat.leb_le in Hlo, Hhi.
    rewrite <- Hl', toUpperCase_spaces in Hlspaces.
    rewrite <- Hr', toUpperCase_spaces in Hrspaces. done.
Qed.

Lemma ticker_shape_witness :
  normalised " msft  " = toUpperCase "msft".
Proof.
  refine (proj2 (ticker_shape Scenario.env Scenario.not_found
                   "2024-05-01T12:00:00.000Z"
                   (Scenario.get (Http.Single " msft  ") (Http.Single "2024")
                      (Http.Single "1"))
                   "secret" " msft  " eq_refl eq_refl eq_refl eq_refl _
                   eq_refl eq_refl)
            " " "msft" "  " _).
  - discriminate.
  - repeat split; reflexivity || (cbn; lia).
Defined.

Lemma out_of_range_spec n lo hi :
  out_of_range n lo hi = true ↔
  n = None ∨ ∃ v, n = Some v ∧ (v < lo ∨ hi < v).
Proof.
  unfold out_of_range. destruct n as [v|]; [|by split; [left|]].
  rewrite orb_true_iff, !Z.ltb_lt. split.
  - intros H. right. by exists v.
  - intros [?|(? & [= <-] & H)]; done.
Qed.

Lemma in_range_spec n lo hi :
  out_of_range n lo hi = false ↔ ∃ v, n = Some v ∧ in_range v lo hi.
Proof.
  unfold out_of_range, in_range. destruct n as [v|].
  - rewrite orb_false_iff, !Z.ltb_ge. split; [by exists v|].
    by intros (? & [= <-] & ?).
  - split; [done|]. by intros (? & ? & _).
Qed.

(** X2.  With a ticker that passes, a year that does not parse, or parses
    below 2000 or above 2030, is answered with the 400 "Year must be between
    2000 and 2030"; with the year in range, a quarter that does not parse, or
    parses below 1 or above 4, with the 400 "Quarter must be between 1 and
    4".  Neither lets a request out. *)
Theorem numbers_out_of_range env net now req apiKey t :
  Http.method req = "GET" →
  Http.configured (Http.API_KEY env) = Some apiKey →
  Http.query req "ticker" = Http.Single t →
  ticker_pattern (normalised t) = true →
  Http.truthy (Http.query req "year") = true →
  Http.truthy (Http.query req "quarter") = true →
  let yearNum := parseInt_query (Http.query req "year") in
  let quarterNum := parseInt_query (Http.query req "quarter") in
  let rejected message :=
    handler env net now req [] =
      (Return (Http.json Http.cors 400 (Failure "Invalid parameter" message None)),
       []) in
  (yearNum = None ∨ (∃ y, yearNum = Some y ∧ (y < 2000 ∨ 2030 < y)) →
   rejected "Year must be between 2000 and 2030") ∧
  ((∃ y, yearNum = Some y ∧ 2000 ≤ y ≤ 2030) →
   quarterNum = None ∨ (∃ q, quarterNum = Some q ∧ (q < 1 ∨ 4 < q)) →
   rejected "Quarter must be between 1 and 4").
Proof.
  intros Hget Hkey Hticker Hpattern Hyear Hquarter yearNum quarterNum rejected.
  subst rejected. cbn beta.
  rewrite (handler_checked env net now req apiKey t); try done.
  2:{ intros ->. done. }
  cbn zeta. rewrite Hpattern. cbn [negb]. fold yearNum quarterNum. split.
  - intros Hy%out_of_range_spec. by rewrite Hy.
  - intros Hy%in_range_spec Hq%out_of_range_spec. by rewrite Hy, Hq.
Qed.

Lemma numbers_out_of_range_witness :
  handler Scenario.env Scenario.not_found "2024-05-01T12:00:00.000Z"
    (Scenario.get (Http.Single "MSFT") (Http.Single "2031") (Http.Single "1")) []
  = (Return (Http.json Http.cors 400
               (Failure "Invalid parameter"
                  "Year must be between 2000 and 2030" None)),
     []) ∧
  handler Scenario.env Scenario.not_found "2024-05-01T12:00:00.000Z"
    (Scenario.get (Http.Single "MSFT") (Http.Single "2030") (Http.Single "5")) []
  = (Return (Http.json Http.cors 400
               (Failure "Invalid parameter"
                  "Quarter must be between 1 and 4" None)),
     []).
Proof.
  split.
  - apply (proj1 (numbers_out_of_range Scenario.env Scenario.not_found
                    "2024-05-01T12:00:00.000Z"
                    (Scenario.get (Http.Single "MSFT") (Http.Single "2031")
                       (Http.Single "1"))
                    "secret" "MSFT" eq_refl eq_refl eq_refl eq_refl eq_refl
                    eq_refl)).
    right. exists 2031. split; [reflexivity|lia].
  - apply (proj2 (numbers_out_of_range Scenario.env Scenario.not_found
                    "2024-05-01T12:00:00.000Z"
                    (Scenario.get (Http.Single "MSFT") (Http.Single "2030")
                       (Http.Single "5"))
                    "secret" "MSFT" eq_refl eq_refl eq_refl eq_refl eq_refl
                    eq_refl)).
    + exists 2030. split; [reflexivity|lia].
    + right. exists 5. split; [reflexivity|lia].
Defined.

(** X3.  A year written with a minus sign, after any white space, never
    passes: whatever follows the sign, the answer is the 400 about the
    year. *)
Theorem negative_year_is_rejected env net now req apiKey t ws rest :
  Http.method req = "GET" →
  Http.configured (Http.API_KEY env) = Some apiKey →
  Http.query req "ticker" = Http.Single t →
  ticker_pattern (normalised t) = true →
  Http.query req "year" = Http.Single (ws +:+ String "-" rest) →
  all_chars is_space ws = true →
  Http.truthy (Http.query req "quarter") = true →
  handler env net now req [] =
    (Return (Http.json Http.cors 400
               (Failure "Invalid parameter"
                  "Year must be between 2000 and 2030" None)),
     []).
Proof.
  intros Hget Hkey Hticker Hpattern Hyear Hws Hquarter.
  rewrite (handler_checked env net now req apiKey t); try done.
  - cbn zeta. rewrite Hpattern, Hyear. cbn [negb parseInt_query].
    assert (out_of_range (parseInt (ws +:+ String "-" rest)) 2000 2030 = true)
      as ->; [|done].
    apply out_of_range_spec.
    destruct (parseInt (ws +:+ String "-" rest)) as [n|] eqn:Hn; [|by left].
    right. exists n. split; [done|]. apply parseInt_minus in Hn; [lia|done].
  - intros ->. done.
  - rewrite Hyear. destruct ws; done.
Qed.

Lemma negative_year_is_rejected_witness :
  handler Scenario.env Scenario.not_found "2024-05-01T12:00:00.000Z"
    (Scenario.get (Http.Single "MSFT") (Http.Single " -2024") (Http.Single "1"))
    []
  = (Return (Http.json Http.cors 400
               (Failure "Invalid parameter"
                  "Year must be between 2000 and 2030" None)),
     []).
Proof.
  exact (negative_year_is_rejected Scenario.env Scenario.not_found
           "2024-05-01T12:00:00.000Z"
           (Scenario.get (Http.Single "MSFT") (Http.Single " -2024")
              (Http.Single "1"))
           "secret" "MSFT" " " "2024"
           eq_refl eq_refl eq_refl eq_refl eq_refl eq_refl eq_refl).
Defined.

(** [parseInt] on white space, an optional plus sign, digits, and whatever
    follows. *)
Lemma parseInt_padded (ws sign ds rest : string) :
  all_chars is_space ws = true →
  sign = EmptyString ∨ sign = "+" →
  all_chars is_digit ds = true →
  no_leading_digit rest = true →
  0 < numeral_value ds →
  parseInt (ws +:+ sign +:+ ds +:+ rest) = Some (numeral_value ds).
Proof.
  intros Hws Hsign Hds Hrest Hpos. rewrite parseInt_spaces by done.
  destruct Hsign as [-> | ->].
  - rewrite append_nil. by apply parseInt_numeral.
  - destruct ds as [|c ds]; [done|].
    rewrite !append_cons, append_nil. rewrite parseInt_plus.
    + rewrite <- append_cons. by apply parseInt_numeral.
    + cbn [all_chars] in Hds. by apply andb_true_iff in Hds as [? _].
Qed.

(** X4.  White space and a plus sign in front of the digits of the year and
    of the quarter are accepted like the text after the digits: the request
    passes validation when the two numbers are in range, and it is the
    numbers in plain decimal that go out. *)
Theorem padded_numbers_pass
    env net now req apiKey t yws ysign ydigits yrest qws qsign qdigits qrest :
  Http.method req = "GET" →
  Http.configured (Http.API_KEY env) = Some apiKey →
  Http.query req "ticker" = Http.Single t →
  ticker_pattern (normalised t) = true →
  Http.query req "year" = Http.Single (yws +:+ ysign +:+ ydigits +:+ yrest) →
  all_chars is_space yws = true → ysign = EmptyString ∨ ysign = "+" →
  all_chars is_digit ydigits = true → no_leading_digit yrest = true →
  in_range (numeral_value ydigits) 2000 2030 →
  Http.query req "quarter" = Http.Single (qws +:+ qsign +:+ qdigits +:+ qrest) →
  all_chars is_space qws = true → qsign = EmptyString ∨ qsign = "+" →
  all_chars is_digit qdigits = true → no_leading_digit qrest = true →
  in_range (numeral_value qdigits) 1 4 →
  ∃ resp,
    handler env net now req [] =
      (Return resp,
       [transcript_request (normalised t) (decimal (numeral_value ydigits))
          (decimal (numeral_value qdigits)) apiKey]) ∧
    Http.statusCode resp ≠ 400.
Proof.
  intros Hget Hkey Hticker Hpattern Hyear Hyws Hysign Hyd Hyr Hy
    Hquarter Hqws Hqsign Hqd Hqr Hq.
  rewrite (handler_validated env net now req apiKey t
             (numeral_value ydigits) (numeral_value qdigits)); try done.
  - pose proof (fetchEarningsTranscript_settles net (normalised t)
                  (decimal (numeral_value ydigits))
                  (decimal (numeral_value qdigits)) apiKey) as Hsettles.
    destruct (fetchEarningsTranscript _ _ _ _ _ []).1 as [data|e|]; [| |done].
    + by eexists.
    + eexists. split; [done|]. cbn.
      destruct (includes "not found" (message e)); done.
  - rewrite Hyear. cbn [parseInt_query].
    apply parseInt_padded; [done..|]. destruct Hy. lia.
  - rewrite Hquarter. cbn [parseInt_query].
    apply parseInt_padded; [done..|]. destruct Hq. lia.
Qed.

Lemma padded_numbers_pass_witness :
  ∃ resp,
    handler Scenario.env Scenario.not_found "2024-05-01T12:00:00.000Z"
      (Scenario.get (Http.Single "MSFT") (Http.Single " +02024 AD")
         (Http.Single "  4th")) [] =
      (Return resp, [transcript_request "MSFT" "2024" "4" "secret"]) ∧
    Http.statusCode resp ≠ 400.
Proof.
  exact (padded_numbers_pass Scenario.env Scenario.not_found
           "2024-05-01T12:00:00.000Z"
           (Scenario.get (Http.Single "MSFT") (Http.Single " +02024 AD")
              (Http.Single "  4th"))
           "secret" "MSFT" " " "+" "02024" " AD" "  " EmptyString "4" "th"
           eq_refl eq_refl eq_refl eq_refl eq_refl eq_refl
           (or_intror eq_refl) eq_refl eq_refl
           ltac:(unfold in_range; vm_compute; split; discriminate)
           eq_refl eq_refl (or_introl eq_refl) eq_refl eq_refl
           ltac:(unfold in_range; vm_compute; split; discriminate)).
Defined.

(** X5.  A year written in hexadecimal passes too: after [0x] or [0X] the
    hexadecimal digits are read, and when they denote a number from 2000 to
    2030 the request goes out with that number in decimal. *)
Theorem hexadecimal_year_passes
    env net now req apiKey t x hdigits rest quarter :
  Http.method req = "GET" →
  Http.configured (Http.API_KEY env) = Some apiKey →
  Http.query req "ticker" = Http.Single t →
  ticker_pattern (normalised t) = true →
  Http.query req "year" = Http.Single (String "0" (String x (hdigits +:+ rest))) →
  x = "x"%char ∨ x = "X"%char →
  all_chars is_hex_digit hdigits = true → no_leading_hex_digit rest = true →
  in_range (hex_value hdigits) 2000 2030 →
  parseInt_query (Http.query req "quarter") = Some quarter →
  in_range quarter 1 4 →
  ∃ resp,
    handler env net now req [] =
      (Return resp,
       [transcript_request (normalised t) (decimal (hex_value hdigits))
          (decimal quarter) apiKey]) ∧
    Http.statusCode resp ≠ 400.
Proof.
  intros Hget Hkey Hticker Hpattern Hyear Hx Hhex Hrest Hy Hquarter Hq.
  rewrite (handler_validated env net now req apiKey t
             (hex_value hdigits) quarter); try done.
  - pose proof (fetchEarningsTranscript_settles net (normalised t)
                  (decimal (hex_value hdigits)) (decimal quarter) apiKey)
      as Hsettles.
    destruct (fetchEarningsTranscript _ _ _ _ _ []).1 as [data|e|]; [| |done].
    + by eexists.
    + eexists. split; [done|]. cbn.
      destruct (includes "not found" (message e)); done.
  - rewrite Hyear. cbn [parseInt_query]. apply parseInt_hex; [done| |done..].
    intros ->. destruct Hy as [Hy _]. vm_compute in Hy. done.
Qed.

Lemma hexadecimal_year_passes_witness :
  ∃ resp,
    handler Scenario.env Scenario.not_found "2024-05-01T12:00:00.000Z"
      (Scenario.get (Http.Single "MSFT") (Http.Single "0x7E8")
         (Http.Single "2")) [] =
      (Return resp, [transcript_request "MSFT" "2024" "2" "secret"]) ∧
    Http.statusCode resp ≠ 400.
Proof.
  exact (hexadecimal_year_passes Scenario.env Scenario.not_found
           "2024-05-01T12:00:00.000Z"
           (Scenario.get (Http.Single "MSFT") (Http.Single "0x7E8")
              (Http.Single "2"))
           "secret" "MSFT" "x"%char "7E8" EmptyString 2
           eq_refl eq_refl eq_refl eq_refl eq_refl (or_introl eq_refl)
           eq_refl eq_refl
           ltac:(unfold in_range; vm_compute; split; discriminate)
           eq_refl
           ltac:(unfold in_range; lia)).
Defined.

End TranscriptValidation.

(** ** The transcript handler: what goes out and what comes back *)

Module TranscriptOutcomes.
Import JS StringFacts ParseFacts Transcript TranscriptFacts TranscriptValidation.

(** X6.  Whatever the request and the environment, the handler lets out at
    most one request, and only after every check has passed: a GET under a
    configured key, with a ticker of one to five upper-case letters once
    normalised, a year from 2000 to 2030 and a quarter from 1 to 4.  The
    request that goes out is built from exactly these values and carries the
    key in its [X-Api-Key] header. *)
Theorem nothing_goes_out_unchecked env net now req :
  ∀ end_ calls,
    handler env net now req [] = (end_, calls) →
    calls = [] ∨
    ∃ apiKey t year quarter,
      Http.method req = "GET" ∧
      Http.configured (Http.API_KEY env) = Some apiKey ∧
      Http.query req "ticker" = Http.Single t ∧
      ticker_pattern (normalised t) = true ∧
      parseInt_query (Http.query req "year") = Some year ∧
      in_range year 2000 2030 ∧
      parseInt_query (Http.query req "quarter") = Some quarter ∧
      in_range quarter 1 4 ∧
      calls = [ {| url := "https://api.api-ninjas.com/v1/earningstranscript?ticker="
                          +:+ normalised t +:+ "&year=" +:+ decimal year
                          +:+ "&quarter=" +:+ decimal quarter;
                   method := "GET";
                   headers := [("X-Api-Key", apiKey);
                               ("Content-Type", "application/json")] |} ].
Proof.
  intros end_ calls. unfold handler.
  destruct (String.eqb (Http.method req) "OPTIONS");
    [intros [= _ <-]; by left|].
  destruct (String.eqb (Http.method req) "GET") eqn:Hget;
    [|intros [= _ <-]; by left].
  apply String.eqb_eq in Hget. cbn [negb]. unfold try_catch.
  destruct (Http.configured _) as [apiKey|] eqn:Hkey;
    [|intros [= _ <-]; by left].
  destruct (Http.truthy (Http.query req "ticker")) eqn:Htruthy;
    [|intros [= _ <-]; by left].
  destruct (Http.truthy (Http.query req "year"));
    [|intros [= _ <-]; by left].
  destruct (Http.truthy (Http.query req "quarter"));
    [|intros [= _ <-]; by left].
  cbn [negb]. unfold bind at 1.
  destruct (Http.query req "ticker") as [|t|l] eqn:Hticker;
    cbn [upper_trim]; [intros [= _ <-]; by left| |intros [= _ <-]; by left].
  unfold ret at 1. fold (normalised t).
  destruct (ticker_pattern (normalised t)) eqn:Hpattern;
    [|intros [= _ <-]; by left].
  destruct (out_of_range _ 2000 2030) eqn:Hy; [intros [= _ <-]; by left|].
  destruct (out_of_range _ 1 4) eqn:Hq; [intros [= _ <-]; by left|].
  apply in_range_spec in Hy as (year & Hyear & Hy).
  apply in_range_spec in Hq as (quarter & Hquarter & Hq).
  rewrite Hyear, Hquarter. cbn [negb toString]. unfold bind.
  rewrite fetchEarningsTranscript_run. cbn [app].
  intros Hrun. right. exists apiKey, t, year, quarter.
  repeat (split; [done|]).
  destruct (fetchEarningsTranscript _ _ _ _ _ []).1;
    by injection Hrun as _ <-.
Qed.

(** X7.  The handler answers every request, and with one of the statuses
    200, 400, 404, 405 and 500. *)
Theorem transcript_statuses env net now req :
  ∃ resp calls,
    handler env net now req [] = (Return resp, calls) ∧
    Http.statusCode resp ∈ [200; 400; 404; 405; 500].
Proof.
  unfold handler.
  destruct (String.eqb (Http.method req) "OPTIONS");
    [eexists _, _; split; [done|]; set_solver|].
  destruct (String.eqb (Http.method req) "GET");
    [|eexists _, _; split; [done|]; set_solver].
  cbn [negb]. unfold try_catch.
  destruct (Http.configured _) as [apiKey|];
    [|eexists _, _; split; [done|]; set_solver].
  destruct (Http.truthy (Http.query req "ticker"));
    [|eexists _, _; split; [done|]; set_solver].
  destruct (Http.truthy (Http.query req "year"));
    [|eexists _, _; split; [done|]; set_solver].
  destruct (Http.truthy (Http.query req "quarter"));
    [|eexists _, _; split; [done|]; set_solver].
  cbn [negb]. unfold bind at 1.
  destruct (Http.query req "ticker") as [|t|l]; cbn [upper_trim];
    [eexists _, _; split; [done|]; set_solver|
    |eexists _, _; split; [done|]; set_solver].
  unfold ret at 1.
  destruct (ticker_pattern _); [|eexists _, _; split; [done|]; set_solver].
  destruct (out_of_range _ 2000 2030);
    [eexists _, _; split; [done|]; set_solver|].
  destruct (out_of_range _ 1 4);
    [eexists _, _; split; [done|]; set_solver|].
  cbn [negb]. unfold bind. rewrite fetchEarningsTranscript_run.
  pose proof (fetchEarningsTranscript_settles net (trim (toUpperCase t))
                (toString (parseInt_query (Http.query req "year")))
                (toString (parseInt_query (Http.query req "quarter")))
                apiKey) as Hsettles.
  destruct (fetchEarningsTranscript _ _ _ _ _ []).1 as [data|e|]; [| |done].
  - eexists _, _. split; [done|]. set_solver.
  - unfold ret. destruct (includes "not found" (message e));
      eexists _, _; (split; [done|]); set_solver.
Qed.

Lemma nothing_goes_out_unchecked_witness :
  [transcript_request "MSFT" "2024" "1" "secret"] = [] ∨
  ∃ apiKey t year quarter,
    Http.method (Scenario.get (Http.Single "msft") (Http.Single "2024")
                   (Http.Single "1")) = "GET" ∧
    Http.configured (Http.API_KEY Scenario.env) = Some apiKey ∧
    Http.Single "msft" = Http.Single t ∧
    ticker_pattern (normalised t) = true ∧
    Some 2024 = Some year ∧
    in_range year 2000 2030 ∧
    Some 1 = Some quarter ∧
    in_range quarter 1 4 ∧
    [transcript_request "MSFT" "2024" "1" "secret"] =
      [ {| url := "https://api.api-ninjas.com/v1/earningstranscript?ticker="
                  +:+ normalised t +:+ "&year=" +:+ decimal year
                  +:+ "&quarter=" +:+ decimal quarter;
           method := "GET";
           headers := [("X-Api-Key", apiKey);
                       ("Content-Type", "application/json")] |} ].
Proof.
  exact (nothing_goes_out_unchecked Scenario.env Scenario.not_found
           "2024-05-01T12:00:00.000Z"
           (Scenario.get (Http.Single "msft") (Http.Single "2024")
              (Http.Single "1"))
           _ _ eq_refl).
Defined.

Lemma assoc_define_eq key v (fields : list (string * json)) :
  assoc key (define key v fields) = Some v.
Proof.
  induction fields as [|[k w] fields IH]; cbn [define assoc].
  - by rewrite String.eqb_refl.
  - destruct (String.eqb k key) eqn:Hk; cbn [assoc].
    + by rewrite String.eqb_sym, Hk.
    + by rewrite String.eqb_sym, Hk.
Qed.

Lemma assoc_define_ne key key' v (fields : list (string * json)) :
  key' ≠ key → assoc key' (define key v fields) = assoc key' fields.
Proof.
  intros Hne%String.eqb_neq.
  induction fields as [|[k w] fields IH]; cbn [define assoc].
  - by rewrite Hne.
  - destruct (String.eqb k key) eqn:Hk; cbn [assoc].
    + apply String.eqb_eq in Hk as ->. by rewrite Hne.
    + by rewrite IH.
Qed.

Lemma includes_nowhere (text : string) :
  all_chars (λ c, negb (Ascii.eqb "n" c)) text = true →
  includes "not found" text = false.
Proof.
  induction text as [|c text IH]; [done|].
  cbn [all_chars]. intros [Hc Hrest]%andb_true_iff.
  cbn [includes startsWith]. apply negb_true_iff in Hc. rewrite Hc.
  by apply IH.
Qed.

Section Validated.
Variables (env : Http.environment) (net : network) (now : string).
Variables (req : Http.request) (apiKey t : string) (year quarter : Z).
Hypothesis Hget : Http.method req = "GET".
Hypothesis Hkey : Http.configured (Http.API_KEY env) = Some apiKey.
Hypothesis Hticker : Http.query req "ticker" = Http.Single t.
Hypothesis Hpattern : ticker_pattern (normalised t) = true.
Hypothesis Hyear : parseInt_query (Http.query req "year") = Some year.
Hypothesis Hy : in_range year 2000 2030.
Hypothesis Hquarter : parseInt_query (Http.query req "quarter") = Some quarter.
Hypothesis Hq : in_range quarter 1 4.

Let outbound : Request :=
  transcript_request (normalised t) (decimal year) (decimal quarter) apiKey.

(** X8.  When the upstream answers the request with a 2xx status and a JSON
    value that has a truthy [transcript], that value is an object, and the
    handler answers 200 with its properties plus [fetchedAt]: [fetchedAt] is
    the time of the answer, also when the upstream sent a [fetchedAt] of its
    own, and every other property is the upstream's. *)
Theorem transcript_is_relayed r data :
  net outbound = Answered r →
  ok r = true →
  body r = Parsed data →
  truthy data = true →
  truthy_opt (prop data "transcript") = true →
  ∃ fields sent,
    data = JObj fields ∧
    handler env net now req [] =
      (Return (Http.json Http.cors 200 (Transcript sent)), [outbound]) ∧
    assoc "fetchedAt" sent = Some (JStr now) ∧
    ∀ key, key ≠ "fetchedAt" → assoc key sent = assoc key fields.
Proof.
  intros Hnet Hok Hbody Hdata Htranscript.
  assert (∃ fields, data = JObj fields) as [fields ->].
  { destruct data; try done. by eexists. }
  exists fields, (define "fetchedAt" (JStr now) fields).
  split; [done|]. split.
  - rewrite (handler_validated env net now req apiKey t year quarter) by done.
    run_fetch. fold outbound. rewrite Hnet, Hok. cbn [negb].
    rewrite Hbody. cbn. cbn in Htranscript. by rewrite Htranscript.
  - split; [apply assoc_define_eq|]. intros key Hne. by apply assoc_define_ne.
Qed.

(** The two texts the handler builds for a fetch that went wrong without
    an upstream 404 hold "not found" only where the upstream put it. *)
Lemma no_data_lacks_not_found :
  includes "not found"
    ("No transcript data available for " +:+ normalised t +:+ " "
     +:+ decimal year +:+ " Q" +:+ decimal quarter) = false.
Proof.
  assert (all_chars is_upper (normalised t) = true) as Hupper.
  { unfold ticker_pattern in Hpattern.
    by apply andb_true_iff in Hpattern as [[? _]%andb_true_iff _]. }
  rewrite !append_cons, !append_nil.
  cbn [includes startsWith Ascii.eqb Bool.eqb andb orb].
  rewrite includes_skip_upper by done.
  cbn [includes startsWith Ascii.eqb Bool.eqb andb orb].
  rewrite includes_skip by apply decimal_lacks_n.
  cbn [includes startsWith Ascii.eqb Bool.eqb andb orb].
  apply includes_nowhere, decimal_lacks_n.
Qed.

Lemma failed_request_text code text :
  includes "not found"
    ("API request failed: " +:+ decimal code +:+ " " +:+ text) =
  includes "not found" text.
Proof.
  rewrite (includes_skip "API request failed: ") by done.
  rewrite includes_skip by apply decimal_lacks_n.
  by rewrite (includes_skip " ").
Qed.

(** X9.  A 2xx answer without a usable transcript ([null], a value that is
    not an object, an object whose [transcript] is missing, empty or
    otherwise falsy) is answered with 500 "Internal server error" and the
    message "No transcript data available for ...". *)
Theorem missing_transcript_is_500 r data :
  net outbound = Answered r →
  ok r = true →
  body r = Parsed data →
  truthy data = false ∨ truthy_opt (prop data "transcript") = false →
  ∃ details,
    handler env net now req [] =
      (Return (Http.json Http.cors 500
                 (Failure "Internal server error"
                    ("No transcript data available for " +:+ normalised t
                     +:+ " " +:+ decimal year +:+ " Q" +:+ decimal quarter)
                    details)),
       [outbound]).
Proof.
  intros Hnet Hok Hbody Hdata.
  rewrite (handler_validated env net now req apiKey t year quarter) by done.
  run_fetch. fold outbound. rewrite Hnet, Hok. cbn [negb]. rewrite Hbody.
  assert (negb (truthy data) || negb (truthy_opt (prop data "transcript")) = true)
    as Hbad.
  { destruct Hdata as [-> | ->]; [done|]. by rewrite orb_true_r. }
  cbn. rewrite Hbad. cbn [fst message new_Error].
  rewrite no_data_lacks_not_found. by eexists.
Qed.

(** X10.  An upstream failure other than 404 is classified by the status
    text the upstream sent: the handler answers 404 "Not found" when that
    text contains "not found", whatever the upstream status, and 500
    "Internal server error" otherwise. *)
Theorem failure_is_classified_by_status_text r :
  net outbound = Answered r →
  ok r = false →
  status r ≠ 404 →
  ∃ details,
    handler env net now req [] =
      (Return (Http.json Http.cors
                 (if includes "not found" (statusText r) then 404 else 500)
                 (Failure
                    (if includes "not found" (statusText r) then "Not found"
                     else "Internal server error")
                    ("API request failed: " +:+ decimal (status r) +:+ " "
                     +:+ statusText r)
                    details)),
       [outbound]).
Proof.
  intros Hnet Hok Hstatus.
  rewrite (handler_validated env net now req apiKey t year quarter) by done.
  run_fetch. fold outbound. rewrite Hnet, Hok. cbn [negb].
  apply Z.eqb_neq in Hstatus. rewrite Hstatus. cbn [fst message new_Error].
  rewrite failed_request_text. by eexists.
Qed.

End Validated.

Lemma transcript_is_relayed_witness :
  ∃ fields sent,
    JObj [("date", JStr "2024-04-25");
          ("fetchedAt", JStr "2024-04-26T08:00:00.000Z");
          ("transcript", JStr "Good afternoon, and welcome.")] = JObj fields ∧
    handler Scenario.env Scenario.with_transcript "2024-05-01T12:00:00.000Z"
      (Scenario.get (Http.Single "msft") (Http.Single "2024") (Http.Single "1"))
      [] =
      (Return (Http.json Http.cors 200 (Transcript sent)),
       [transcript_request "MSFT" "2024" "1" "secret"]) ∧
    assoc "fetchedAt" sent = Some (JStr "2024-05-01T12:00:00.000Z") ∧
    ∀ key, key ≠ "fetchedAt" → assoc key sent = assoc key fields.
Proof.
  refine (transcript_is_relayed Scenario.env Scenario.with_transcript
            "2024-05-01T12:00:00.000Z"
            (Scenario.get (Http.Single "msft") (Http.Single "2024")
               (Http.Single "1"))
            "secret" "msft" 2024 1 eq_refl eq_refl eq_refl eq_refl eq_refl _
            eq_refl _
            {| status := 200; statusText := "OK";
               body := Parsed (JObj [("date", JStr "2024-04-25");
                                     ("fetchedAt", JStr "2024-04-26T08:00:00.000Z");
                                     ("transcript", JStr "Good afternoon, and welcome.")]) |}
            _ eq_refl eq_refl eq_refl eq_refl eq_refl);
    unfold in_range; lia.
Defined.

Lemma missing_transcript_is_500_witness :
  ∃ details,
    handler Scenario.env Scenario.empty_object "2024-05-01T12:00:00.000Z"
      (Scenario.get (Http.Single "msft") (Http.Single "2024") (Http.Single "1"))
      [] =
      (Return (Http.json Http.cors 500
                 (Failure "Internal server error"
                    "No transcript data available for MSFT 2024 Q1" details)),
       [transcript_request "MSFT" "2024" "1" "secret"]).
Proof.
  refine (missing_transcript_is_500 Scenario.env Scenario.empty_object
            "2024-05-01T12:00:00.000Z"
            (Scenario.get (Http.Single "msft") (Http.Single "2024")
               (Http.Single "1"))
            "secret" "msft" 2024 1 eq_refl eq_refl eq_refl eq_refl eq_refl _
            eq_refl _
            {| status := 200; statusText := "OK"; body := Parsed (JObj []) |}
            (JObj []) eq_refl eq_refl eq_refl (or_intror eq_refl));
    unfold in_range; lia.
Defined.

Lemma failure_is_classified_by_status_text_witness :
  ∃ details,
    handler Scenario.env Scenario.gateway "2024-05-01T12:00:00.000Z"
      (Scenario.get (Http.Single "msft") (Http.Single "2024") (Http.Single "1"))
      [] =
      (Return (Http.json Http.cors 404
                 (Failure "Not found"
                    "API request failed: 502 Upstream host not found" details)),
       [transcript_request "MSFT" "2024" "1" "secret"]).
Proof.
  refine (failure_is_classified_by_status_text Scenario.env Scenario.gateway
            "2024-05-01T12:00:00.000Z"
            (Scenario.get (Http.Single "msft") (Http.Single "2024")
               (Http.Single "1"))
            "secret" "msft" 2024 1 eq_refl eq_refl eq_refl eq_refl eq_refl _
            eq_refl _
            {| status := 502; statusText := "Upstream host not found";
               body := Malformed
                         (new_Error "Unexpected token < in JSON at position 0") |}
            eq_refl eq_refl _);
    unfold in_range; try lia. discriminate.
Defined.

End TranscriptOutcomes.

(** ** The price handler: what goes out and what comes back *)

Section PromiseAllSettles.
Context {A : Type}.
Implicit Types (promises values : list A) (schedule : list nat).

(** The combined promise resolves only when every promise has settled. *)
Lemma Promise_all_needs_all schedule promises values i :
  JS.Promise_all schedule promises = Some values →
  (i < length promises)%nat → i ∈ schedule.
Proof.
  unfold JS.Promise_all. intros H%collect_Some Hlt.
  eapply Forall2_lookup_l in H as (v & _ & Hv).
  2:{ by apply lookup_seq_lt. }
  cbn in Hv. rewrite settled_lookup in Hv.
  case_decide as Hin; [by destruct Hin|]. by rewrite lookup_empty in Hv.
Qed.

End PromiseAllSettles.

Module StocksOutcomes.
Import JS Stocks StocksFacts.

(** X11.  On a GET under a configured key five requests go out, one per
    company in the order of the list, each a GET of the price of the ticker
    with the key in the [X-Api-Key] header: whatever the upstream answers,
    in whatever order the answers come, and also when some never comes. *)
Theorem five_requests_go_out env net now schedule req apiKey :
  Http.method req = "GET" →
  Http.configured (Http.API_KEY env) = Some apiKey →
  (handler env net now schedule req []).2 =
    map (λ ticker,
           {| url := "https://api.api-ninjas.com/v1/stockprice?ticker=" +:+ ticker;
              method := "GET";
              headers := [("X-Api-Key", apiKey);
                          ("Content-Type", "application/json")] |})
      ["AAPL"; "MSFT"; "GOOGL"; "META"; "AMZN"].
Proof.
  intros Hget Hkey.
  destruct (handler_GET env net now schedule req apiKey Hget Hkey)
    as (entries & _ & ->).
  reflexivity.
Qed.

Lemma five_requests_go_out_witness :
  (handler Scenario.env Scenario.offline "2024-05-01T12:00:00.000Z"
     [3; 1]%nat (Scenario.with_method "GET") []).2 =
    map (λ ticker,
           {| url := "https://api.api-ninjas.com/v1/stockprice?ticker=" +:+ ticker;
              method := "GET";
              headers := [("X-Api-Key", "secret");
                          ("Content-Type", "application/json")] |})
      ["AAPL"; "MSFT"; "GOOGL"; "META"; "AMZN"].
Proof.
  exact (five_requests_go_out Scenario.env Scenario.offline
           "2024-05-01T12:00:00.000Z" [3; 1]%nat (Scenario.with_method "GET")
           "secret" eq_refl eq_refl).
Defined.

(** X12.  There is no timeout: on a GET under a configured key the handler
    answers when each of the five fetches has settled, and never answers
    when one of them does not. *)
Theorem answer_waits_for_all_five env net now schedule req apiKey :
  Http.method req = "GET" →
  Http.configured (Http.API_KEY env) = Some apiKey →
  ((∀ i, (i < 5)%nat → i ∈ schedule) →
   ∃ resp, (handler env net now schedule req []).1 = Return resp) ∧
  (∀ i, (i < 5)%nat → i ∉ schedule →
   (handler env net now schedule req []).1 = Pending).
Proof.
  intros Hget Hkey.
  destruct (handler_GET env net now schedule req apiKey Hget Hkey)
    as (entries & Hentries & ->).
  pose proof (Forall2_length _ _ _ Hentries) as Hlen.
  change (length COMPETITORS) with 5%nat in Hlen. split.
  - intros Hall. rewrite Promise_all_resolves by (by rewrite <- Hlen).
    cbn. destruct (length _ =? 0)%nat; eauto.
  - intros i Hi Hnot. cbn [fst].
    destruct (Promise_all schedule entries) as [values|] eqn:Hvalues; [|done].
    exfalso. apply Hnot.
    eapply Promise_all_needs_all; [done|]. by rewrite <- Hlen.
Qed.

Lemma answer_waits_for_all_five_witness :
  (handler Scenario.env Scenario.only_MSFT "2024-05-01T12:00:00.000Z"
     [4; 2; 0; 1]%nat (Scenario.with_method "GET") []).1 = Pending.
Proof.
  refine (proj2 (answer_waits_for_all_five Scenario.env Scenario.only_MSFT
                   "2024-05-01T12:00:00.000Z" [4; 2; 0; 1]%nat
                   (Scenario.with_method "GET") "secret" eq_refl eq_refl)
            3%nat _ _).
  - lia.
  - apply (bool_decide_unpack _). vm_compute. reflexivity.
Defined.

(** What a failed entry looks like. *)
Lemma failed_entry net apiKey company entry :
  (stockPromise net apiKey company []).1 = Return entry →
  success entry = false →
  price entry = Some JNull ∧ exchange entry = None ∧ is_Some (error entry).
Proof.
  rewrite stockPromise_value.
  destruct (outcome net apiKey company); [| |done]; intros [= <-]; [done|].
  intros _. cbn. eauto.
Qed.

Lemma none_succeeded (entries : list StockResult) :
  length (filter (λ stock, success stock = true) entries) = 0%nat →
  Forall (λ stock, success stock = false) entries.
Proof.
  intros Hnone%length_zero_iff_nil. apply Forall_forall. intros stock Hin.
  apply not_true_is_false. intros Hok.
  assert (stock ∈ filter (λ stock, success stock = true) entries) as H
    by (by apply list_elem_of_filter).
  rewrite Hnone in H. by apply elem_of_nil in H.
Qed.

(** X13.  On a GET under a configured key no upstream failure turns into a
    500: the answer is 200 or 503.  A 200 counts five data points and at
    least one success, and [successfulFetches] is the number of entries with
    [success: true]; a 503 lists the five companies in order under
    [details], each with [success: false], the price [null], no exchange and
    an error message. *)
Theorem answer_is_200_or_503 env net now schedule req apiKey resp calls :
  Http.method req = "GET" →
  Http.configured (Http.API_KEY env) = Some apiKey →
  handler env net now schedule req [] = (Return resp, calls) →
  (Http.statusCode resp = 200 ∧
   ∃ successes stocks,
     Http.content resp = Http.Json (Prices now 5 successes stocks) ∧
     (1 ≤ successes ≤ 5)%nat ∧
     successes = length (filter (λ stock, success stock = true) stocks)) ∨
  (Http.statusCode resp = 503 ∧
   ∃ details,
     Http.content resp =
       Http.Json (Unavailable "Service unavailable"
                    "Unable to fetch any stock data at this time. Please try again later."
                    details) ∧
     map result_ticker details = ["AAPL"; "MSFT"; "GOOGL"; "META"; "AMZN"] ∧
     Forall (λ stock,
               success stock = false ∧ price stock = Some JNull ∧
               exchange stock = None ∧ is_Some (error stock))
       details).
Proof.
  intros Hget Hkey.
  destruct (handler_GET env net now schedule req apiKey Hget Hkey)
    as (entries & Hentries & ->).
  pose proof (Forall2_length _ _ _ Hentries) as Hlen.
  change (length COMPETITORS) with 5%nat in Hlen.
  destruct (Promise_all schedule entries); [|done]. cbn zeta.
  destruct (length _ =? 0)%nat eqn:Hzero; intros [= <- _].
  - right. split; [done|]. exists entries. split; [done|].
    split; [by rewrite (entries_tickers _ _ _ _ Hentries)|].
    apply Nat.eqb_eq, none_succeeded in Hzero.
    apply Forall_forall. intros stock Hin.
    rewrite Forall_forall in Hzero. specialize (Hzero stock Hin).
    split; [done|].
    apply list_elem_of_lookup in Hin as [i Hi].
    eapply Forall2_lookup_r in Hentries as (company & _ & Hentry); [|done].
    by eapply failed_entry.
  - left. split; [done|]. eexists _, _. rewrite <- Hlen.
    split; [done|]. split; [|done].
    apply Nat.eqb_neq in Hzero.
    pose proof (length_filter (λ stock, success stock = true) entries). lia.
Qed.

Lemma answer_is_200_or_503_witness :
  ∃ resp,
    handler Scenario.env Scenario.offline "2024-05-01T12:00:00.000Z"
      [0; 1; 2; 3; 4]%nat (Scenario.with_method "GET") [] =
      (Return resp, outbound "secret") ∧
    Http.statusCode resp = 503 ∧
    ∃ details,
      Http.content resp =
        Http.Json (Unavailable "Service unavailable"
                     "Unable to fetch any stock data at this time. Please try again later."
                     details) ∧
      map result_ticker details = ["AAPL"; "MSFT"; "GOOGL"; "META"; "AMZN"] ∧
      Forall (λ stock,
                success stock = false ∧ price stock = Some JNull ∧
                exchange stock = None ∧ is_Some (error stock))
        details.
Proof.
  eexists. split; [vm_compute; reflexivity|].
  destruct (answer_is_200_or_503 Scenario.env Scenario.offline
              "2024-05-01T12:00:00.000Z" [0; 1; 2; 3; 4]%nat
              (Scenario.with_method "GET") "secret" _ _
              eq_refl eq_refl eq_refl) as [[Hstatus _]|H].
  - discriminate Hstatus.
  - exact H.
Defined.

(** X14.  The error of a failed entry says what went wrong for that ticker:
    the message of the runtime when the fetch itself or the reading of the
    body fails, "API request failed for <ticker>: <status> <status text>"
    on a status outside 200-299, and "Invalid data received for <ticker>"
    on a 2xx body that is falsy or has no [price]. *)
Theorem error_of_failed_entry net apiKey company :
  let answered := net (stockprice_request (ticker company) apiKey) in
  let fails_with msg :=
    ∃ entry,
      (stockPromise net apiKey company []).1 = Return entry ∧
      success entry = false ∧ error entry = Some msg in
  (∀ e, answered = Rejected e → fails_with (message e)) ∧
  (∀ r, answered = Answered r → ok r = false →
        fails_with ("API request failed for " +:+ ticker company +:+ ": "
                    +:+ decimal (status r) +:+ " " +:+ statusText r)) ∧
  (∀ r e, answered = Answered r → ok r = true → body r = Malformed e →
          fails_with (message e)) ∧
  (∀ r data, answered = Answered r → ok r = true → body r = Parsed data →
             truthy data = false ∨ prop data "price" = None →
             fails_with ("Invalid data received for " +:+ ticker company)).
Proof.
  intros answered fails_with. subst answered fails_with. cbn beta.
  rewrite stockPromise_value. unfold outcome. run_io.
  repeat split.
  - intros e ->. by eexists.
  - intros r -> ->. by eexists.
  - intros r e -> -> ->. by eexists.
  - intros r data -> -> -> Hdata. cbn.
    assert (negb (truthy data) || is_undefined (prop data "price") = true) as ->.
    { destruct Hdata as [-> | ->]; [done|]. by rewrite orb_true_r. }
    by eexists.
Qed.

Lemma error_of_failed_entry_witness :
  ∃ entry,
    (stockPromise Scenario.only_MSFT "secret" Scenario.AAPL []).1 = Return entry ∧
    success entry = false ∧
    error entry = Some "API request failed for AAPL: 500 Internal Server Error".
Proof.
  exact (proj1 (proj2 (error_of_failed_entry Scenario.only_MSFT "secret"
                         Scenario.AAPL))
           {| status := 500; statusText := "Internal Server Error";
              body := Malformed (new_Error "Unexpected end of JSON input") |}
           eq_refl eq_refl).
Defined.

End StocksOutcomes.

(** ** What the error envelopes disclose *)

Module Disclosure.
Import JS Transcript.

Lemma development_flag env :
  Http.development env = true ↔ Http.NODE_ENV env = Some "development".
Proof.
  unfold Http.development. destruct (Http.NODE_ENV env) as [v|]; [|done].
  rewrite String.eqb_eq. split; [by intros ->|by intros [= ->]].
Qed.

(** What the catch block of the transcript handler sends. *)
Lemma caught_details env (e : Error) kind msg details :
  Http.content
    (Http.json Http.cors
       (if includes "not found" (message e) then 404 else 500)
       (Failure
          (if (if includes "not found" (message e) then 404 else 500) =? 404
           then "Not found" else "Internal server error")
          (message e)
          (if Http.development env then Some (stack e) else None))) =
    Http.Json (Failure kind msg details) →
  is_Some details ↔
  Http.NODE_ENV env = Some "development" ∧
  (kind = "Not found" ∨ kind = "Internal server error").
Proof.
  cbn. rewrite <- development_flag. intros [= <- _ <-].
  destruct (Http.development env).
  - split; [intros _|by eauto]. split; [done|].
    destruct (includes "not found" (message e)); cbn; auto.
  - split; [by intros [? ?]|by intros [? _]].
Qed.

(** X15.  An error body of the transcript handler carries [details] exactly
    when [NODE_ENV] is "development" and the error was caught by the
    handler's catch block, that is, when its kind is "Not found" or
    "Internal server error"; the bodies for a wrong method, a missing key
    and a missing or invalid parameter never do, and outside development no
    error body does. *)
Theorem details_only_in_development env net now req resp calls kind msg details :
  handler env net now req [] = (Return resp, calls) →
  Http.content resp = Http.Json (Failure kind msg details) →
  is_Some details ↔
  Http.NODE_ENV env = Some "development" ∧
  (kind = "Not found" ∨ kind = "Internal server error").
Proof.
  assert (∀ k m,
            Http.Json (Failure k m None) = Http.Json (Failure kind msg details) →
            k ≠ "Not found" → k ≠ "Internal server error" →
            is_Some details ↔
            Http.NODE_ENV env = Some "development" ∧
            (kind = "Not found" ∨ kind = "Internal server error")) as Hplain.
  { intros k m [= <- _ <-] H1 H2. split; [by intros [? ?]|].
    by intros [_ [?|?]]. }
  unfold handler.
  destruct (String.eqb (Http.method req) "OPTIONS");
    [by intros [= <- _]|].
  destruct (String.eqb (Http.method req) "GET");
    [|intros [= <- _] H; by apply (Hplain _ _ H)].
  cbn [negb]. unfold try_catch.
  destruct (Http.configured _) as [apiKey|];
    [|intros [= <- _] H; by apply (Hplain _ _ H)].
  destruct (Http.truthy (Http.query req "ticker"));
    [|intros [= <- _] H; by apply (Hplain _ _ H)].
  destruct (Http.truthy (Http.query req "year"));
    [|intros [= <- _] H; by apply (Hplain _ _ H)].
  destruct (Http.truthy (Http.query req "quarter"));
    [|intros [= <- _] H; by apply (Hplain _ _ H)].
  cbn [negb]. unfold bind at 1.
  destruct (Http.query req "ticker") as [|t|l]; cbn [upper_trim];
    [intros [= <- _];
     apply (caught_details env
              (new_TypeError
                 "Cannot read properties of undefined (reading 'toUpperCase')"))|
    |intros [= <- _];
     apply (caught_details env
              (new_TypeError "ticker.toUpperCase is not a function"))].
  unfold ret at 1.
  destruct (ticker_pattern _);
    [|intros [= <- _] H; by apply (Hplain _ _ H)].
  destruct (out_of_range _ 2000 2030);
    [intros [= <- _] H; by apply (Hplain _ _ H)|].
  destruct (out_of_range _ 1 4);
    [intros [= <- _] H; by apply (Hplain _ _ H)|].
  cbn [negb]. unfold bind.
  destruct (fetchEarningsTranscript _ _ _ _ _ _) as [[data|e|] ?];
    [by intros [= <- _]|intros [= <- _]; apply caught_details|done].
Qed.

Lemma details_only_in_development_witness :
  ∃ resp details,
    handler Scenario.developing Scenario.offline "2024-05-01T12:00:00.000Z"
      (Scenario.get (Http.Single "msft") (Http.Single "2024") (Http.Single "1"))
      [] =
      (Return resp, [transcript_request "MSFT" "2024" "1" "secret"]) ∧
    Http.content resp =
      Http.Json (Failure "Internal server error" "fetch failed" details) ∧
    is_Some details.
Proof.
  eexists _, _. split; [vm_compute; reflexivity|]. split; [reflexivity|].
  apply (details_only_in_development Scenario.developing Scenario.offline
           "2024-05-01T12:00:00.000Z"
           (Scenario.get (Http.Single "msft") (Http.Single "2024")
              (Http.Single "1"))
           _ _ "Internal server error" "fetch failed" _ eq_refl eq_refl).
  split; [reflexivity|]. right. reflexivity.
Defined.

End Disclosure.

(** ** A parameter given more than once *)

Module RepeatedParameter.
Import JS Transcript.

(** X16.  A ticker given more than once reaches the handler as an array,
    which has no [toUpperCase]: the exception is caught by the handler, and
    the answer is 500 "Internal server error", not a 400, with nothing sent
    to the upstream. *)
Theorem repeated_ticker_is_500 env net now req apiKey tickers :
  Http.method req = "GET" →
  Http.configured (Http.API_KEY env) = Some apiKey →
  Http.query req "ticker" = Http.Multi tickers →
  Http.truthy (Http.query req "year") = true →
  Http.truthy (Http.query req "quarter") = true →
  ∃ msg details,
    handler env net now req [] =
      (Return (Http.json Http.cors 500
                 (Failure "Internal server error" msg details)),
       []).
Proof.
  intros Hget Hkey Hticker Hyear Hquarter.
  unfold handler. rewrite Hget, Hkey. cbn [String.eqb Ascii.eqb Bool.eqb negb].
  rewrite Hticker, Hyear, Hquarter. cbn. by eexists _, _.
Qed.

Lemma repeated_ticker_is_500_witness :
  ∃ msg details,
    handler Scenario.env Scenario.with_transcript "2024-05-01T12:00:00.000Z"
      (Scenario.get (Http.Multi ["MSFT"; "AAPL"]) (Http.Single "2024")
         (Http.Single "1")) [] =
      (Return (Http.json Http.cors 500
                 (Failure "Internal server error" msg details)),
       []).
Proof.
  exact (repeated_ticker_is_500 Scenario.env Scenario.with_transcript
           "2024-05-01T12:00:00.000Z"
           (Scenario.get (Http.Multi ["MSFT"; "AAPL"]) (Http.Single "2024")
              (Http.Single "1"))
           "secret" ["MSFT"; "AAPL"] eq_refl eq_refl eq_refl eq_refl eq_refl).
Defined.

End RepeatedParameter.
